(** * MicroOcpp (ArduinoOcpp): clock, transaction record and connection adapters

    A shallow embedding of
    - [src/ArduinoOcpp/Core/Time.h]                       (module [OcppTime]),
    - [src/ArduinoOcpp/Tasks/Transactions/Transaction.h]  (module [Tx]),
    - [src/ArduinoOcpp/Core/Connection.cpp]               (module [Connection]),
    - [src/ArduinoOcpp/Tasks/ChargeControl/ChargeControlCommon.cpp]
                                                           (module [ChargeControl]),
    and of the transaction coordinator of one connector as the specification
    describes it (module [Coordinator]); sequences of calls on a transaction
    (module [TxOps]), of sends and WebSocket events (module [ConnectionRuns])
    and the feature profiles of the constructor (module [FeatureProfiles])
    are built on the source modules.  The properties checked on them follow.

    Machine integers are carried as [Z]; where the C++ code converts between
    widths the conversion is written out.  [ao_tick_ms()] is an argument
    [now] of the function that reads it. *)

From Stdlib Require Import ZArith List String Ascii Bool Lia.
Import ListNotations.
Local Open Scope Z_scope.

(* ===================================================================== *)
(** ** Time.h                                                            *)
(* ===================================================================== *)

Module OcppTime.

(** [typedef int32_t otime_t;] *)
Definition otime_t := Z.

Definition INT32_MAX : Z := 2147483647.


(** [#define OTIME_MAX ((otime_t) INT32_MAX)] *)
Definition OTIME_MAX : otime_t := INT32_MAX.

(** [#define INFINITY_THLD (OTIME_MAX - ((otime_t) (400 * 24 * 3600)))] *)
Definition INFINITY_THLD : otime_t := OTIME_MAX - (400 * 24 * 3600).



(** [#define JSONDATE_LENGTH 24] *)
Definition JSONDATE_LENGTH : Z := 24.

(** [class Timestamp]: January is month 0 and the first day of a month is
    day 0.  The fields are [int16_t]/[int32_t] in the source. *)
Record Timestamp : Type := mkTimestamp {
  year   : Z;
  month  : Z;
  day    : Z;
  hour   : Z;
  minute : Z;
  second : Z
}.

(** [Timestamp()]: the member initialisers, UNIX time 0. *)
Definition Timestamp_default : Timestamp := mkTimestamp 1970 0 0 0 0 0.

(** *** Parsing a JSON date *)

(** [isdigit] of the C library. *)
Definition isdigit (c : ascii) : bool := (("0" <=? c) && (c <=? "9"))%char.

(** [str[i]]; past the end the terminating 0 is read. *)
Definition char_at (str : string) (i : nat) : ascii :=
  match String.get i str with
  | Some c => c
  | None => zero
  end.

(** [str[i] - '0'] *)
Definition digit_at (str : string) (i : nat) : Z :=
  Z.of_nat (nat_of_ascii (char_at str i)) - 48.

Definition JSONDATE_MINLENGTH : nat := 19.

(** Modelled from the spec: the calendar of the operators of [Timestamp],
    which Time.cpp defines: the Gregorian calendar, leap years observed. *)
Definition isLeapYear (y : Z) : bool :=
  (y mod 4 =? 0) && (negb (y mod 100 =? 0) || (y mod 400 =? 0)).

(** Days of month [m] (0 is January) in year [y]. *)
Definition noDays (m y : Z) : Z :=
  match m with
  | 1 => if isLeapYear y then 29 else 28
  | 3 | 5 | 8 | 10 => 30
  | _ => 31
  end.

(** Modelled from the spec: the data model has a timestamp range "from epoch
    1970-01-01T00:00:00Z up to a sentinel MAX_TIME", about the year 2036;
    [MAX_TIME] is declared [extern] in Time.h and defined elsewhere.  The
    years of a timestamp are taken as 1970 to 2036. *)
Definition MIN_YEAR : Z := 1970.
Definition MAX_YEAR : Z := 2036.

(** Modelled from the spec: [Timestamp::setTime] is declared in Time.h and
    defined in Time.cpp, which is not part of the sources at hand.  The spec
    has [parse_iso] accept the first 19 characters [YYYY-MM-DDTHH:MM:SS] and
    reject anything else; the header adds that only those 19 characters are
    processed, that what follows is ignored up to the terminating 0, and that
    false is returned for what is not a JSON date.  After the check of the
    characters the fields are checked against the data model's timestamp:
    a year of its range, a month from 0 to 11, a day of that month, an hour,
    minute and second of a day.  January is month 0 and the first day of a
    month is day 0, so both fields are stored one less than written.  The
    result is the returned [bool] and the timestamp afterwards. *)
Definition Timestamp_setTime (jsonDateString : string) (self : Timestamp)
  : bool * Timestamp :=
  let s := jsonDateString in
  if (String.length s <? JSONDATE_MINLENGTH)%nat then (false, self)
  else if negb (isdigit (char_at s 0))
       || negb (isdigit (char_at s 1))
       || negb (isdigit (char_at s 2))
       || negb (isdigit (char_at s 3))
       || negb (char_at s 4 =? "-")%char
       || negb (isdigit (char_at s 5))
       || negb (isdigit (char_at s 6))
       || negb (char_at s 7 =? "-")%char
       || negb (isdigit (char_at s 8))
       || negb (isdigit (char_at s 9))
       || negb (char_at s 10 =? "T")%char
       || negb (isdigit (char_at s 11))
       || negb (isdigit (char_at s 12))
       || negb (char_at s 13 =? ":")%char
       || negb (isdigit (char_at s 14))
       || negb (isdigit (char_at s 15))
       || negb (char_at s 16 =? ":")%char
       || negb (isdigit (char_at s 17))
       || negb (isdigit (char_at s 18))
  then (false, self)
  else
    let y := digit_at s 0 * 1000 + digit_at s 1 * 100 + digit_at s 2 * 10 + digit_at s 3 in
    let mo := digit_at s 5 * 10 + digit_at s 6 - 1 in
    let d := digit_at s 8 * 10 + digit_at s 9 - 1 in
    let h := digit_at s 11 * 10 + digit_at s 12 in
    let mi := digit_at s 14 * 10 + digit_at s 15 in
    let se := digit_at s 17 * 10 + digit_at s 18 in
    if (y <? MIN_YEAR) || (MAX_YEAR <? y)
       || (mo <? 0) || (12 <=? mo)
       || (d <? 0) || (noDays mo y <=? d)
       || (24 <=? h) || (60 <=? mi) || (60 <=? se)
    then (false, self)
    else (true, mkTimestamp y mo d h mi se).

(** What [Timestamp_setTime] returns, as one boolean. *)
Definition setTime_accepts (s : string) : bool :=
  fst (Timestamp_setTime s Timestamp_default).

(** *** Calendar arithmetic *)

(** Modelled from the spec: the operators of [Timestamp] are declared in
    Time.h and defined in Time.cpp.  The spec: "Addition normalizes carrying
    across seconds/minutes/hours/days/months/years using the Gregorian
    calendar; leap years observed.  Subtraction of two timestamps computes
    days-since-epoch difference x 86400 + intra-day difference; saturates to
    OTIME_MAX/-OTIME_MAX on overflow.  Ordering is lexicographic on the field
    tuple."  First the days of year [y] before its month [m]. *)
Fixpoint days_before_month_nat (y : Z) (m : nat) : Z :=
  match m with
  | O => 0
  | S k => days_before_month_nat y k + noDays (Z.of_nat k) y
  end.

Definition days_before_month (y m : Z) : Z := days_before_month_nat y (Z.to_nat m).

(** Days from 1970-01-01 to the first day of year [y]: 365 a year and one
    more for each leap year passed. *)
Definition days_before_year (y : Z) : Z :=
  365 * (y - 1970) + ((y - 1) / 4 - (y - 1) / 100 + (y - 1) / 400 - 477).

Definition year_length (y : Z) : Z := if isLeapYear y then 366 else 365.

Definition days_since_epoch (y m d : Z) : Z :=
  days_before_year y + days_before_month y m + d.

(** Seconds since 1970-01-01T00:00:00. *)
Definition toScalar (t : Timestamp) : Z :=
  days_since_epoch (year t) (month t) (day t) * 86400
  + hour t * 3600 + minute t * 60 + second t.

Definition saturate (d : Z) : otime_t :=
  if OTIME_MAX <? d then OTIME_MAX
  else if d <? - OTIME_MAX then - OTIME_MAX
  else d.


(** Carrying days across months and years: a day before the first of the
    month borrows from the month before, a day past the last carries into the
    month after.  Each step moves the day by at least 28, so [fuel] steps
    suffice when [fuel] exceeds the distance. *)
Fixpoint carry_days (fuel : nat) (y m d : Z) : Z * Z * Z :=
  match fuel with
  | O => (y, m, d)
  | S fuel' =>
      if d <? 0 then
        let y' := if m =? 0 then y - 1 else y in
        let m' := if m =? 0 then 11 else m - 1 in
        carry_days fuel' y' m' (d + noDays m' y')
      else if noDays m y <=? d then
        let y' := if m =? 11 then y + 1 else y in
        let m' := if m =? 11 then 0 else m + 1 in
        carry_days fuel' y' m' (d - noDays m y)
      else (y, m, d)
  end.

(** [Timestamp &operator+=(int secs)] *)
Definition Timestamp_add (t : Timestamp) (secs : Z) : Timestamp :=
  let s := second t + secs in
  let mi := minute t + s / 60 in
  let h := hour t + mi / 60 in
  let d := day t + h / 24 in
  let '(y', m', d') := carry_days (S (Z.to_nat (Z.abs d))) (year t) (month t) d in
  mkTimestamp y' m' d' (h mod 24) (mi mod 60) (s mod 60).

(** [Timestamp &operator-=(int secs)] *)
Definition Timestamp_sub (t : Timestamp) (secs : Z) : Timestamp :=
  Timestamp_add t (- secs).

Definition Timestamp_tuple (t : Timestamp) : list Z :=
  [year t; month t; day t; hour t; minute t; second t].

Fixpoint lex_ltb (a b : list Z) : bool :=
  match a, b with
  | x :: a', y :: b' => (x <? y) || ((x =? y) && lex_ltb a' b')
  | _, _ => false
  end.

(** [operator<] and [operator==] *)
Definition Timestamp_ltb (lhs rhs : Timestamp) : bool :=
  lex_ltb (Timestamp_tuple lhs) (Timestamp_tuple rhs).

Definition Timestamp_eqb (lhs rhs : Timestamp) : bool :=
  forallb (fun p => fst p =? snd p) (combine (Timestamp_tuple lhs) (Timestamp_tuple rhs)).

(** A timestamp is in calendar form when its month is one of the twelve. *)
Definition month_ok (t : Timestamp) : Prop := 0 <= month t <= 11.

(** A day within its month. *)
Definition day_ok (y m d : Z) : Prop := 0 <= d < noDays m y.

(** *** JSON dates, as the specification words them *)

(** A valid date: a timestamp of the data model, every field in its range. *)
Definition valid_date (t : Timestamp) : Prop :=
  MIN_YEAR <= year t <= MAX_YEAR /\
  0 <= month t <= 11 /\
  day_ok (year t) (month t) (day t) /\
  0 <= hour t < 24 /\ 0 <= minute t < 60 /\ 0 <= second t < 60.

(** The character of the last decimal digit of [n]. *)
Definition digit_char (n : Z) : ascii := ascii_of_nat (Z.to_nat (48 + n mod 10)).

(** The last two, and the last four, decimal digits of [n], then [tail]. *)
Definition write2 (n : Z) (tail : string) : string :=
  String (digit_char (n / 10)) (String (digit_char n) tail).

Definition write4 (n : Z) (tail : string) : string :=
  String (digit_char (n / 1000)) (String (digit_char (n / 100)) (write2 n tail)).

(** The 19 characters [YYYY-MM-DDTHH:MM:SS] of a timestamp, month and day
    written from 1, then [tail]. *)
Definition write_date (t : Timestamp) (tail : string) : string :=
  write4 (year t) (String "-" (write2 (month t + 1) (String "-" (write2 (day t + 1)
    (String "T" (write2 (hour t) (String ":" (write2 (minute t)
      (String ":" (write2 (second t) tail)))))))))).

(** A string is a JSON date when its first 19 characters are a valid date
    written in the shape [YYYY-MM-DDTHH:MM:SS]; what follows them (a
    fractional part, the [Z]) is free. *)
Definition is_json_date (s : string) : Prop :=
  exists (t : Timestamp) (rest : string), valid_date t /\ s = write_date t rest.

(** *** The clock *)

(** [class Time]: the OCPP time at the moment it was taken from the server,
    the system tick of that moment, and whether the time was set.  The cache
    of [getTimestampNow] ([currentTime], [previousUpdate]) is left out, and
    the system clock is the argument [now] of the operations. *)
Record Time : Type := mkTime {
  ocpp_basetime : Timestamp;
  system_basetime : Z;
  timeIsSet : bool
}.

Definition Time_init : Time := mkTime Timestamp_default 0 false.


(** Modelled from the spec: [Time::setTime] is defined in Time.cpp.  The
    spec: [set(wallclock_iso)] sets [base_ocpp = parsed],
    [base_tick = now_tick], [valid = true]; a parse failure leaves the clock
    as it was. *)
Definition Time_setTime (now : Z) (jsonDateString : string) (c : Time) : bool * Time :=
  let (success, timestamp) := Timestamp_setTime jsonDateString Timestamp_default in
  if success then (true, mkTime timestamp now true) else (false, c).

(** Modelled from the spec: current time is
    [base_ocpp + (now_tick - base_tick)/1000]. *)
Definition getTimestampNow (now : Z) (c : Time) : Timestamp :=
  Timestamp_add (ocpp_basetime c) ((now - system_basetime c) / 1000).

(** Modelled from the spec: an event whose tick predates [base_tick] is
    serialised as [base_ocpp - (base_tick - event_tick)/1000]. *)
Definition adjustPrebootTimestamp (c : Time) (event_tick : Z) : Timestamp :=
  Timestamp_sub (ocpp_basetime c) ((system_basetime c - event_tick) / 1000).

End OcppTime.

(* ===================================================================== *)
(** ** Transaction.h                                                     *)
(* ===================================================================== *)

Module Tx.
Import OcppTime.

(** Modelled from the spec: [IDTAG_LEN_MAX] and [REASON_LEN_MAX] come from
    CiStrings.h, which is not part of the sources at hand; the data model gives
    both buffers 21 characters ([id_tag[21]], [reason[21]]), terminator
    included. *)
Definition IDTAG_LEN_MAX : nat := 20.
Definition REASON_LEN_MAX : nat := 20.

(** Modelled from the spec: [MIN_TIME] is declared [extern] in Time.h and
    defined elsewhere; the data model has timestamps range "from epoch
    1970-01-01T00:00:00Z", which is taken as the least one. *)
Definition MIN_TIME : Timestamp := Timestamp_default.

(** [snprintf(dst, n + 1, "%s", src)] keeps at most [n] characters. *)
Definition snprintf_s (n : nat) (src : string) : string := substring 0 n src.

(** [class RpcSync] *)
Record RpcSync : Type := mkRpcSync {
  requested : bool;
  confirmed : bool
}.

Definition RpcSync_init : RpcSync := mkRpcSync false false.

Definition setRequested (r : RpcSync) : RpcSync := mkRpcSync true (confirmed r).
Definition isRequested (r : RpcSync) : bool := requested r.
Definition confirm (r : RpcSync) : RpcSync := mkRpcSync (requested r) true.
Definition isConfirmed (r : RpcSync) : bool := confirmed r.
Definition RpcSync_isCompleted (r : RpcSync) : bool := isRequested r && isConfirmed r.

(** [class ClientTransactionStart] *)
Record ClientTransactionStart : Type := mkClientTransactionStart {
  start_timestamp : Timestamp;
  start_meter : Z;
  reservationId : Z
}.

(** [class ServerTransactionStart] *)
Record ServerTransactionStart : Type := mkServerTransactionStart {
  transactionId : Z
}.

(** [class TransactionStart] *)
Record TransactionStart : Type := mkTransactionStart {
  start_rpc : RpcSync;
  start_client : ClientTransactionStart;
  start_server : ServerTransactionStart
}.

(** [class ClientTransactionStop] *)
Record ClientTransactionStop : Type := mkClientTransactionStop {
  stop_idTag : string;
  stop_timestamp : Timestamp;
  stop_meter : Z;
  stop_reason : string
}.

(** [class TransactionStop]; [ServerTransactionStop] holds no data. *)
Record TransactionStop : Type := mkTransactionStop {
  stop_rpc : RpcSync;
  stop_client : ClientTransactionStop
}.

(** [class ChargingSession] *)
Record ChargingSession : Type := mkChargingSession {
  idTag : string;
  authorized : bool;
  deauthorized : bool;
  session_timestamp : Timestamp;
  txProfileId : Z;
  active : bool
}.

(** [class Transaction]; the reference to the owning store is left out, and
    with it [commit] and the JSON serialisation, which go through the store. *)
Record Transaction : Type := mkTransaction {
  session : ChargingSession;
  start : TransactionStart;
  stop : TransactionStop;
  connectorId : Z;
  txNr : Z;
  silent : bool
}.

(** The constructor together with the member initialisers of the parts. *)
Definition Transaction_new (cId nr : Z) (slnt : bool) : Transaction :=
  {| session := mkChargingSession EmptyString false false MIN_TIME (-1) true;
     start := mkTransactionStart RpcSync_init
                (mkClientTransactionStart MIN_TIME (-1) (-1))
                (mkServerTransactionStart (-1));
     stop := mkTransactionStop RpcSync_init
                (mkClientTransactionStop EmptyString MIN_TIME (-1) EmptyString);
     connectorId := cId;
     txNr := nr;
     silent := slnt |}.

Definition getStartRpcSync (t : Transaction) : RpcSync := start_rpc (start t).
Definition getStopRpcSync (t : Transaction) : RpcSync := stop_rpc (stop t).

(** The derived state predicates, lines 138-142. *)
Definition isAborted (t : Transaction) : bool :=
  negb (requested (start_rpc (start t))) && negb (active (session t)).
Definition isCompleted (t : Transaction) : bool :=
  isConfirmed (stop_rpc (stop t)).
Definition isPreparing (t : Transaction) : bool :=
  active (session t) && negb (isRequested (start_rpc (start t))).
Definition isRunning (t : Transaction) : bool :=
  isRequested (start_rpc (start t)) && negb (isRequested (stop_rpc (stop t))).
Definition isActive (t : Transaction) : bool := active (session t).

(** Functional record updates used by the mutators. *)
Definition with_session (f : ChargingSession -> ChargingSession) (t : Transaction) : Transaction :=
  mkTransaction (f (session t)) (start t) (stop t) (connectorId t) (txNr t) (silent t).
Definition with_start (f : TransactionStart -> TransactionStart) (t : Transaction) : Transaction :=
  mkTransaction (session t) (f (start t)) (stop t) (connectorId t) (txNr t) (silent t).
Definition with_stop (f : TransactionStop -> TransactionStop) (t : Transaction) : Transaction :=
  mkTransaction (session t) (start t) (f (stop t)) (connectorId t) (txNr t) (silent t).

Definition with_start_rpc (f : RpcSync -> RpcSync) : Transaction -> Transaction :=
  with_start (fun s => mkTransactionStart (f (start_rpc s)) (start_client s) (start_server s)).
Definition with_stop_rpc (f : RpcSync -> RpcSync) : Transaction -> Transaction :=
  with_stop (fun s => mkTransactionStop (f (stop_rpc s)) (stop_client s)).
Definition with_start_client (f : ClientTransactionStart -> ClientTransactionStart)
  : Transaction -> Transaction :=
  with_start (fun s => mkTransactionStart (start_rpc s) (f (start_client s)) (start_server s)).
Definition with_stop_client (f : ClientTransactionStop -> ClientTransactionStop)
  : Transaction -> Transaction :=
  with_stop (fun s => mkTransactionStop (stop_rpc s) (f (stop_client s))).

Definition getIdTag (t : Transaction) : string := idTag (session t).
Definition setIdTag (tag : string) : Transaction -> Transaction :=
  with_session (fun s => mkChargingSession (snprintf_s IDTAG_LEN_MAX tag) (authorized s)
                           (deauthorized s) (session_timestamp s) (txProfileId s) (active s)).
Definition getSessionTimestamp (t : Transaction) : Timestamp := session_timestamp (session t).
Definition setSessionTimestamp (ts : Timestamp) : Transaction -> Transaction :=
  with_session (fun s => mkChargingSession (idTag s) (authorized s) (deauthorized s) ts
                           (txProfileId s) (active s)).

Definition getStopReason (t : Transaction) : string := stop_reason (stop_client (stop t)).
Definition setStopReason (r : string) : Transaction -> Transaction :=
  with_stop_client (fun c => mkClientTransactionStop (stop_idTag c) (stop_timestamp c)
                               (stop_meter c) (snprintf_s REASON_LEN_MAX r)).
Definition endSession : Transaction -> Transaction :=
  with_session (fun s => mkChargingSession (idTag s) (authorized s) (deauthorized s)
                           (session_timestamp s) (txProfileId s) false).

Definition setAuthorized : Transaction -> Transaction :=
  with_session (fun s => mkChargingSession (idTag s) true (deauthorized s)
                           (session_timestamp s) (txProfileId s) (active s)).
Definition isAuthorized (t : Transaction) : bool := authorized (session t).

Definition setIdTagDeauthorized : Transaction -> Transaction :=
  with_session (fun s => mkChargingSession (idTag s) (authorized s) true
                           (session_timestamp s) (txProfileId s) (active s)).
Definition isIdTagDeauthorized (t : Transaction) : bool := deauthorized (session t).

Definition getTransactionId (t : Transaction) : Z := transactionId (start_server (start t)).
Definition setTransactionId (id : Z) : Transaction -> Transaction :=
  with_start (fun s => mkTransactionStart (start_rpc s) (start_client s)
                         (mkServerTransactionStart id)).

Definition setMeterStart (m : Z) : Transaction -> Transaction :=
  with_start_client (fun c => mkClientTransactionStart (start_timestamp c) m (reservationId c)).
Definition isMeterStartDefined (t : Transaction) : bool := 0 <=? start_meter (start_client (start t)).
Definition getMeterStart (t : Transaction) : Z := start_meter (start_client (start t)).

Definition setStartTimestamp (ts : Timestamp) : Transaction -> Transaction :=
  with_start_client (fun c => mkClientTransactionStart ts (start_meter c) (reservationId c)).
Definition getStartTimestamp (t : Transaction) : Timestamp := start_timestamp (start_client (start t)).

Definition setMeterStop (m : Z) : Transaction -> Transaction :=
  with_stop_client (fun c => mkClientTransactionStop (stop_idTag c) (stop_timestamp c) m (stop_reason c)).
Definition isMeterStopDefined (t : Transaction) : bool := 0 <=? stop_meter (stop_client (stop t)).
Definition getMeterStop (t : Transaction) : Z := stop_meter (stop_client (stop t)).

Definition setStopTimestamp (ts : Timestamp) : Transaction -> Transaction :=
  with_stop_client (fun c => mkClientTransactionStop (stop_idTag c) ts (stop_meter c) (stop_reason c)).
Definition getStopTimestamp (t : Transaction) : Timestamp := stop_timestamp (stop_client (stop t)).

Definition isSilent (t : Transaction) : bool := silent t.

End Tx.

(* ===================================================================== *)
(** ** Connection.cpp                                                    *)
(* ===================================================================== *)

Module Connection.

Section Sockets.

(** The receive callback is a [std::function<bool(const char*, size_t)>]; its
    effects fall on the rest of the program, whose state is [World]. *)
Variable World : Type.

Definition ReceiveTXTcallback : Type := string -> World -> bool * World.

(** [class OcppEchoSocket]: the members that Connection.cpp reads and writes. *)
Record OcppEchoSocket : Type := mkOcppEchoSocket {
  connected : bool;
  receiveTXT : option ReceiveTXTcallback;
  lastRecv : Z
}.

(** [bool OcppEchoSocket::sendTXT(std::string &out)], with [now] the value
    that [ao_tick_ms()] returns. *)
Definition sendTXT (now : Z) (out : string) (s : OcppEchoSocket) (w : World)
  : bool * OcppEchoSocket * World :=
  if negb (connected s) then (true, s, w)
  else match receiveTXT s with
       | Some cb =>
           let s' := mkOcppEchoSocket (connected s) (receiveTXT s) now in
           let (r, w') := cb out w in
           (r, s', w')
       | None => (false, s, w)
       end.

Definition setReceiveTXTcallback (cb : ReceiveTXTcallback) (s : OcppEchoSocket) : OcppEchoSocket :=
  mkOcppEchoSocket (connected s) (Some cb) (lastRecv s).

Definition getLastRecv (s : OcppEchoSocket) : Z := lastRecv s.

(** [WStype_t] of the WebSockets library. *)
Inductive WStype_t : Type :=
| WStype_ERROR
| WStype_DISCONNECTED
| WStype_CONNECTED
| WStype_TEXT
| WStype_BIN
| WStype_FRAGMENT_TEXT_START
| WStype_FRAGMENT_BIN_START
| WStype_FRAGMENT
| WStype_FRAGMENT_FIN
| WStype_PING
| WStype_PONG.

(** The event handler that [OcppClientSocket::setReceiveTXTcallback] installs
    on the WebSocket: it maps the captured [lastRecv] and the world to their
    values after the event.  Log output is not modelled. *)
Definition onEvent (callback : ReceiveTXTcallback) (now : Z)
    (type : WStype_t) (payload : string) (captureLastRecv : Z) (w : World)
  : Z * World :=
  match type with
  | WStype_DISCONNECTED => (captureLastRecv, w)
  | WStype_CONNECTED => (now, w)
  | WStype_TEXT =>
      let (ok, w') := callback payload w in
      if ok then (now, w') else (captureLastRecv, w')
  | WStype_BIN => (captureLastRecv, w)
  | WStype_PING => (now, w)
  | WStype_PONG => (now, w)
  | _ => (captureLastRecv, w)
  end.

End Sockets.

Arguments mkOcppEchoSocket {World}.
Arguments connected {World}.
Arguments receiveTXT {World}.
Arguments lastRecv {World}.
Arguments sendTXT {World}.
Arguments setReceiveTXTcallback {World}.
Arguments getLastRecv {World}.
Arguments onEvent {World}.

End Connection.

(* ===================================================================== *)
(** ** ChargeControlCommon.cpp                                           *)
(* ===================================================================== *)

Module ChargeControl.

(** [unsigned int] and [int] are 32 bits wide. *)
Definition UINT_MOD : Z := 2 ^ 32.
Definition is_unsigned (u : Z) : Prop := 0 <= u < UINT_MOD.

(** Subtraction on [unsigned int]. *)
Definition usub (a b : Z) : Z := (a - b) mod UINT_MOD.

(** Conversion of an [unsigned int] to the [int] that a [Configuration<int>]
    holds: values from [2^31] on wrap to the negative range. *)
Definition int_of_unsigned (u : Z) : Z :=
  if u <? 2 ^ 31 then u else u - UINT_MOD.

Inductive ConfigValue : Type :=
| CInt (i : Z)
| CBool (b : bool)
| CStr (s : string).

(** One call of [declareConfiguration<T>(key, defaultValue, filename,
    remotePeerCanWrite, remotePeerCanRead, localClientCanWrite, rebootRequired)];
    every declaration of this constructor is [CONFIGURATION_VOLATILE]. *)
Record Declaration : Type := mkDeclaration {
  key : string;
  defaultValue : ConfigValue;
  remotePeerCanWrite : bool;
  remotePeerCanRead : bool;
  localClientCanWrite : bool;
  rebootRequired : bool
}.

(** The second argument of the first declaration:
    [numConn >= 1 ? numConn - 1 : 0], computed on [unsigned int] and passed
    as [int]. *)
Definition numberOfConnectors_value (numConn : Z) : Z :=
  int_of_unsigned (if 1 <=? numConn then usub numConn 1 else 0).

(** The configuration keys that the constructor declares, in order, with the
    default values it passes.  [declareConfiguration] (Configuration.h) is not
    part of the sources at hand, so the constructor is given by the
    declarations it issues; the completion of SupportedFeatureProfiles that
    follows the second declaration reads the stored value back and is left
    out. *)
Definition ChargeControlCommon_declarations (numConn : Z) : list Declaration :=
  [ mkDeclaration "NumberOfConnectors" (CInt (numberOfConnectors_value numConn))
      false true false false;
    mkDeclaration "SupportedFeatureProfiles" (CStr "Core,RemoteTrigger")
      false true true false;
    mkDeclaration "AuthorizeRemoteTxRequests" (CBool false) false true false false;
    mkDeclaration "GetConfigurationMaxKeys" (CInt 30) false true false false ].

(** The value a key is declared with. *)
Fixpoint declared_value (k : string) (ds : list Declaration) : option ConfigValue :=
  match ds with
  | [] => None
  | d :: ds' => if String.eqb k (key d) then Some (defaultValue d) else declared_value k ds'
  end.

(** The actions registered with the operation registry, in order. *)
Definition ChargeControlCommon_operations : list string :=
  [ "ChangeAvailability"; "ChangeConfiguration"; "ClearCache"; "GetConfiguration";
    "RemoteStartTransaction"; "RemoteStopTransaction"; "Reset"; "TriggerMessage";
    "UnlockConnector"; "Authorize"; "StartTransaction"; "StatusNotification";
    "StopTransaction" ]%string.

End ChargeControl.

(* ===================================================================== *)
(** ** The transaction coordinator of one connector                      *)
(* ===================================================================== *)

Module Coordinator.
Import OcppTime Tx.

(** Modelled from the spec: the code that drives a transaction (the connector
    and its loop, the StartTransaction and StopTransaction operations, the
    transaction store) is not part of the sources at hand; only a test of it
    is.  What follows is the spec's sections 4.5 and 4.6 for a single
    connector whose store holds one record.  The record is [Tx.Transaction]
    and is kept across a reboot; the clock and the tick anchors of boundaries
    that happened while the clock was invalid live in memory and are gone
    after a reboot.  A timestamp field that still holds [MIN_TIME] is
    undefined.  The Central System answers at once, as the echo socket does. *)

Record Config : Type := mkConfig {
  ConnectionTimeOut : Z;
  AO_PreBootTransactions : bool
}.

(** Section 6: ConnectionTimeOut 30 s, AO_PreBootTransactions false. *)
Definition Config_default : Config := mkConfig 30 false.

Inductive Availability : Type := Operative | Inoperative.

(** The inputs of section 4.5; [connector_plugged] is [None] when no plug
    sensor is configured. *)
Record Inputs : Type := mkInputs {
  connector_plugged : option bool;
  evse_ready : bool;
  connector_faulted : bool;
  availability : Availability;
  reservation_active : bool;
  meter_reading : Z
}.

Inductive ConnectorState : Type :=
| Available | Preparing | Charging | SuspendedEV | SuspendedEVSE
| Finishing | Reserved | Unavailable | Faulted.

(** The transaction boundary RPCs. *)
Inductive Rpc : Type :=
| StartTransaction (connector : Z) (id_tag : string) (timestamp : Timestamp) (meter_start : Z)
| StopTransaction (transaction_id : Z) (timestamp : Timestamp) (meter_stop : Z) (reason : string).

Record State : Type := mkState {
  clock : Time;
  connected : bool;                (* the transport *)
  head : option Transaction;       (* the stored record of the connector *)
  start_tick : option Z;           (* tick of a StartTransaction taken with the clock invalid *)
  stop_tick : option Z;            (* the same for StopTransaction *)
  timeout_since : option Z;        (* tick since which the ConnectionTimeOut condition holds *)
  last_tx_nr : Z;
  last_transaction_id : Z;         (* the ids the Central System gave out *)
  sent : list Rpc                  (* boundary RPCs emitted, oldest first *)
}.

Definition State_init (conn : bool) : State :=
  mkState Time_init conn None None None None 0 0 [].

Definition set_clock (c : Time) (s : State) : State :=
  mkState c (connected s) (head s) (start_tick s) (stop_tick s) (timeout_since s)
    (last_tx_nr s) (last_transaction_id s) (sent s).
Definition set_connected (b : bool) (s : State) : State :=
  mkState (clock s) b (head s) (start_tick s) (stop_tick s) (timeout_since s)
    (last_tx_nr s) (last_transaction_id s) (sent s).
Definition set_head (h : option Transaction) (s : State) : State :=
  mkState (clock s) (connected s) h (start_tick s) (stop_tick s) (timeout_since s)
    (last_tx_nr s) (last_transaction_id s) (sent s).
Definition set_start_tick (a : option Z) (s : State) : State :=
  mkState (clock s) (connected s) (head s) a (stop_tick s) (timeout_since s)
    (last_tx_nr s) (last_transaction_id s) (sent s).
Definition set_stop_tick (a : option Z) (s : State) : State :=
  mkState (clock s) (connected s) (head s) (start_tick s) a (timeout_since s)
    (last_tx_nr s) (last_transaction_id s) (sent s).
Definition set_timeout_since (a : option Z) (s : State) : State :=
  mkState (clock s) (connected s) (head s) (start_tick s) (stop_tick s) a
    (last_tx_nr s) (last_transaction_id s) (sent s).

(** A timestamp is defined once it lies after [MIN_TIME]. *)
Definition is_defined (ts : Timestamp) : bool := Timestamp_ltb MIN_TIME ts.

(** The store is full while its record is neither Completed nor Aborted. *)
Definition store_full (s : State) : bool :=
  match head s with
  | Some t => negb (isCompleted t || isAborted t)
  | None => false
  end.

(** [begin(connector, id_tag)] and [begin_authorized]: allocate, set the tag,
    the session timestamp when the clock is valid, and the authorization. *)
Definition begin (now : Z) (id_tag : string) (auth : bool) (s : State) : State :=
  if store_full s then s
  else
    let nr := last_tx_nr s + 1 in
    let t0 := setIdTag id_tag (Transaction_new 1 nr false) in
    let t1 := if timeIsSet (clock s)
              then setSessionTimestamp (getTimestampNow now (clock s)) t0 else t0 in
    let t2 := if auth then setAuthorized t1 else t1 in
    mkState (clock s) (connected s) (Some t2) None None None
      nr (last_transaction_id s) (sent s).

(** The response to Authorize. *)
Definition authorize_conf (accepted : bool) (s : State) : State :=
  match head s with
  | Some t => set_head (Some (if accepted then setAuthorized t else setIdTagDeauthorized t)) s
  | None => s
  end.

(** [end(reason)] *)
Definition end_session (reason : string) (s : State) : State :=
  match head s with
  | Some t => if isActive t then set_head (Some (setStopReason reason (endSession t))) s else s
  | None => s
  end.

(** [abort()]: before StartTransaction is requested the session just ends;
    afterwards it is [end("Other")]. *)
Definition abort (s : State) : State :=
  match head s with
  | Some t =>
      if isRequested (start_rpc (start t)) then end_session "Other" s
      else set_head (Some (endSession t)) s
  | None => s
  end.

Definition is_unplugged (inp : Inputs) : bool :=
  match connector_plugged inp with
  | Some false => true
  | _ => false
  end.

Definition is_plugged (inp : Inputs) : bool :=
  match connector_plugged inp with
  | Some true => true
  | _ => false
  end.

(** Plugged, or no plug sensor configured. *)
Definition plug_permits (inp : Inputs) : bool := negb (is_unplugged inp).

(** ConnectionTimeOut: the condition [session.active /\ ~plugged /\
    ~start.rpc.requested]. *)
Definition timeout_condition (inp : Inputs) (t : Transaction) : bool :=
  isActive t && is_unplugged inp && negb (isRequested (start_rpc (start t))).

Definition check_connection_timeout (cfg : Config) (now : Z) (inp : Inputs) (s : State) : State :=
  match head s with
  | Some t =>
      if timeout_condition inp t then
        let since := match timeout_since s with Some t0 => t0 | None => now end in
        if ConnectionTimeOut cfg * 1000 <=? now - since
        then set_timeout_since None (abort s)
        else set_timeout_since (Some since) s
      else set_timeout_since None s
  | None => set_timeout_since None s
  end.

(** The starting conditions. *)
Definition start_conditions (cfg : Config) (inp : Inputs) (s : State) (t : Transaction) : bool :=
  isActive t && negb (isRequested (start_rpc (start t))) && isAuthorized t
  && plug_permits inp && (timeIsSet (clock s) || AO_PreBootTransactions cfg).

Definition try_start (cfg : Config) (now : Z) (inp : Inputs) (s : State) : State :=
  match head s with
  | Some t =>
      if start_conditions cfg inp s t then
        let t1 := if timeIsSet (clock s)
                  then setStartTimestamp (getTimestampNow now (clock s)) t else t in
        let t2 := with_start_rpc setRequested (setMeterStart (meter_reading inp) t1) in
        set_start_tick (if timeIsSet (clock s) then None else Some now)
          (set_head (Some t2) s)
      else s
  | None => s
  end.

(** The session of a running transaction has ended: StopTransaction is due. *)
Definition try_stop (now : Z) (inp : Inputs) (s : State) : State :=
  match head s with
  | Some t =>
      if isRunning t && negb (isActive t) then
        let t1 := if timeIsSet (clock s)
                  then setStopTimestamp (getTimestampNow now (clock s)) t else t in
        let t2 := with_stop_rpc setRequested (setMeterStop (meter_reading inp) t1) in
        set_stop_tick (if timeIsSet (clock s) then None else Some now)
          (set_head (Some t2) s)
      else s
  | None => s
  end.

(** The timestamp StartTransaction goes out with: the stored one when it is
    defined, else the tick anchor rewritten to wall time, else none. *)
Definition start_timestamp_to_send (s : State) (t : Transaction) : option Timestamp :=
  if is_defined (getStartTimestamp t) then Some (getStartTimestamp t)
  else match start_tick s with
       | Some event_tick => Some (adjustPrebootTimestamp (clock s) event_tick)
       | None => None
       end.

(** The same for StopTransaction; when neither exists the stop is put one
    second after the start. *)
Definition stop_timestamp_to_send (s : State) (t : Transaction) : Timestamp :=
  if is_defined (getStopTimestamp t) then getStopTimestamp t
  else match stop_tick s with
       | Some event_tick => adjustPrebootTimestamp (clock s) event_tick
       | None => Timestamp_add (getStartTimestamp t) 1
       end.

Definition emit_start (s : State) : State :=
  match head s with
  | Some t =>
      if isRequested (start_rpc (start t)) && negb (isConfirmed (start_rpc (start t))) then
        match start_timestamp_to_send s t with
        | Some ts =>
            let id := last_transaction_id s + 1 in
            let t' := with_start_rpc confirm (setTransactionId id (setStartTimestamp ts t)) in
            mkState (clock s) (connected s) (Some t') None (stop_tick s) (timeout_since s)
              (last_tx_nr s) id
              (sent s ++ [StartTransaction (connectorId t) (getIdTag t) ts (getMeterStart t)])
        | None =>
            (* the start cannot be dated any more: the transaction is dropped *)
            mkState (clock s) (connected s) None None None (timeout_since s)
              (last_tx_nr s) (last_transaction_id s) (sent s)
        end
      else s
  | None => s
  end.

Definition emit_stop (s : State) : State :=
  match head s with
  | Some t =>
      if RpcSync_isCompleted (start_rpc (start t)) && isRequested (stop_rpc (stop t))
         && negb (isConfirmed (stop_rpc (stop t))) then
        let ts := stop_timestamp_to_send s t in
        let t' := with_stop_rpc confirm (setStopTimestamp ts t) in
        mkState (clock s) (connected s) (Some t') (start_tick s) None (timeout_since s)
          (last_tx_nr s) (last_transaction_id s)
          (sent s ++ [StopTransaction (getTransactionId t) ts (getMeterStop t) (getStopReason t)])
      else s
  | None => s
  end.

(** Boundary RPCs leave once the transport is connected and the clock valid,
    StopTransaction only after StartTransaction is confirmed. *)
Definition emit_boundaries (s : State) : State :=
  if connected s && timeIsSet (clock s) then emit_stop (emit_start s) else s.

(** One pass of the loop at tick [now]. *)
Definition tick (cfg : Config) (now : Z) (inp : Inputs) (s : State) : State :=
  emit_boundaries (try_stop now inp (try_start cfg now inp
    (check_connection_timeout cfg now inp s))).

(** A power cycle: the record stays, the clock and the tick anchors go. *)
Definition reboot (s : State) : State :=
  mkState Time_init (connected s) (head s) None None None
    (last_tx_nr s) (last_transaction_id s) (sent s).

Definition setTime (now : Z) (iso : string) (s : State) : State :=
  set_clock (snd (Time_setTime now iso (clock s))) s.

Definition transaction_running (s : State) : bool :=
  match head s with
  | Some t => isRunning t
  | None => false
  end.

Definition session_active (s : State) : bool :=
  match head s with
  | Some t => isActive t && negb (isRequested (stop_rpc (stop t)))
  | None => false
  end.

(** The ending-session grace of section 4.5: the session of a transaction
    that was started has ended and the connector is still plugged. *)
Definition ending_session_grace (inp : Inputs) (s : State) : bool :=
  match head s with
  | Some t => isRequested (start_rpc (start t)) && negb (isActive t) && is_plugged inp
  | None => false
  end.

(** Section 4.5, the transitions in their order of priority.  Without a plug
    sensor a running transaction counts as plugged.  The ending-session grace
    is tested before the rule for Preparing: that rule holds for every plugged
    connector, so after it Finishing could never be reported, and the test
    case "via session management - deauthorize first" of
    tests/ChargingSessions.cpp expects Finishing while the connector is still
    plugged after the end of the session, and Available once it is unplugged. *)
Definition status (inp : Inputs) (s : State) : ConnectorState :=
  let running := transaction_running s in
  if connector_faulted inp then Faulted
  else if match availability inp with Inoperative => negb running | Operative => false end
       then Unavailable
  else if reservation_active inp && negb running then Reserved
  else if running && evse_ready inp && plug_permits inp then Charging
  else if running && negb (evse_ready inp) then SuspendedEVSE
  else if running && negb (plug_permits inp) then SuspendedEV
  else if ending_session_grace inp s then Finishing
  else if session_active s || is_plugged inp then Preparing
  else Available.

(** What the host and the environment do, each at a tick. *)
Inductive Event : Type :=
| EvBegin (id_tag : string)
| EvBeginAuthorized (id_tag : string)
| EvAuthorizeConf (accepted : bool)
| EvEnd (reason : string)
| EvAbort
| EvTick (inp : Inputs)
| EvSetTime (iso : string)
| EvSetConnected (b : bool)
| EvReboot.

Definition step (cfg : Config) (s : State) (e : Z * Event) : State :=
  let (now, ev) := e in
  match ev with
  | EvBegin id_tag => begin now id_tag false s
  | EvBeginAuthorized id_tag => begin now id_tag true s
  | EvAuthorizeConf accepted => authorize_conf accepted s
  | EvEnd reason => end_session reason s
  | EvAbort => abort s
  | EvTick inp => tick cfg now inp s
  | EvSetTime iso => setTime now iso s
  | EvSetConnected b => set_connected b s
  | EvReboot => reboot s
  end.

Definition run (cfg : Config) (evs : list (Z * Event)) (s : State) : State :=
  fold_left (step cfg) evs s.

(** A charger without plug sensor, ready, operative, with a meter reading. *)
Definition no_plug_sensor (m : Z) : Inputs := mkInputs None true false Operative false m.

(** The same with a plug sensor. *)
Definition with_plug (p : bool) : Inputs := mkInputs (Some p) true false Operative false 0.



(** The stored record, or a fresh one when the store is empty. *)
Definition head_transaction (s : State) : Transaction :=
  match head s with
  | Some t => t
  | None => Transaction_new 1 0 false
  end.

(** *** The scenarios of section 8 *)

Definition BASE_TIME : string := "2023-01-01T00:00:00.000Z".

Definition preboot_config : Config := mkConfig 30 true.

(** S3: begin with the connector unplugged. *)
Definition S3_begun : State :=
  Eval vm_compute in
    run Config_default [ (0, EvBegin "mIdTag") ] (State_init true).

(** S4: a transaction of one hour, started and stopped offline before the
    clock is set; an hour later the clock is set and the transport connects. *)
Definition S4_events : list (Z * Event) :=
  [ (0, EvBeginAuthorized "mIdTag"); (0, EvTick (no_plug_sensor 0));
    (3600000, EvEnd "Local"); (3600000, EvTick (no_plug_sensor 0));
    (7200000, EvSetTime BASE_TIME); (7200000, EvSetConnected true);
    (7200000, EvTick (no_plug_sensor 0)) ].

(** S5: a transaction started offline before the clock is set. *)
Definition S5_started : State :=
  Eval vm_compute in
    run preboot_config
      [ (0, EvBeginAuthorized "mIdTag"); (0, EvTick (no_plug_sensor 0)) ]
      (State_init false).

(** S6: a transaction started with the clock set, then a reboot offline and
    the end of the session before the clock is set again. *)
Definition S6_stopped : State :=
  Eval vm_compute in
    run preboot_config
      [ (0, EvSetTime "2023-02-01T00:00:00.000Z");
        (0, EvBeginAuthorized "mIdTag"); (0, EvTick (no_plug_sensor 0));
        (1000, EvReboot); (1000, EvSetConnected false); (1000, EvTick (no_plug_sensor 0));
        (2000, EvEnd "Local"); (2000, EvTick (no_plug_sensor 0)) ]
      (State_init true).

(** After the next reboot: the transport connects and the time is set. *)
Definition reconnect_events (iso : string) (t_reboot t_conn t_set now : Z) (inp : Inputs)
  : list (Z * Event) :=
  [ (t_reboot, EvReboot); (t_conn, EvSetConnected true);
    (t_set, EvSetTime iso); (now, EvTick inp) ].

End Coordinator.

(* ===================================================================== *)
(** ** Transaction.h, the remaining accessors and the mutators as a whole *)
(* ===================================================================== *)

Module TxOps.
Import OcppTime Tx.

Definition getConnectorId (t : Transaction) : Z := connectorId t.
Definition setConnectorId (c : Z) (t : Transaction) : Transaction :=
  mkTransaction (session t) (start t) (stop t) c (txNr t) (silent t).
Definition getTxNr (t : Transaction) : Z := txNr t.
Definition setTxNr (n : Z) (t : Transaction) : Transaction :=
  mkTransaction (session t) (start t) (stop t) (connectorId t) n (silent t).

Definition setReservationId (r : Z) : Transaction -> Transaction :=
  with_start_client (fun c => mkClientTransactionStart (start_timestamp c) (start_meter c) r).
Definition getReservationId (t : Transaction) : Z := reservationId (start_client (start t)).

Definition getStopIdTag (t : Transaction) : string := stop_idTag (stop_client (stop t)).
Definition setStopIdTag (tag : string) : Transaction -> Transaction :=
  with_stop_client (fun c => mkClientTransactionStop (snprintf_s IDTAG_LEN_MAX tag)
                               (stop_timestamp c) (stop_meter c) (stop_reason c)).

(** Every way the header gives to change a transaction: its setters, and
    [setRequested] and [confirm] on the references that [getStartRpcSync] and
    [getStopRpcSync] hand out.  [deserializeSessionState] and [commit] are
    defined outside the header and are not among them. *)
Inductive Mutator : Type :=
| SetConnectorId (c : Z)
| SetTxNr (n : Z)
| StartSetRequested
| StartConfirm
| StopSetRequested
| StopConfirm
| SetIdTag (tag : string)
| SetSessionTimestamp (ts : Timestamp)
| SetStopReason (reason : string)
| EndSession
| SetAuthorized
| SetIdTagDeauthorized
| SetTransactionId (id : Z)
| SetMeterStart (m : Z)
| SetReservationId (r : Z)
| SetStartTimestamp (ts : Timestamp)
| SetMeterStop (m : Z)
| SetStopTimestamp (ts : Timestamp)
| SetStopIdTag (tag : string).

Definition mutate (m : Mutator) : Transaction -> Transaction :=
  match m with
  | SetConnectorId c => setConnectorId c
  | SetTxNr n => setTxNr n
  | StartSetRequested => with_start_rpc setRequested
  | StartConfirm => with_start_rpc confirm
  | StopSetRequested => with_stop_rpc setRequested
  | StopConfirm => with_stop_rpc confirm
  | SetIdTag tag => setIdTag tag
  | SetSessionTimestamp ts => setSessionTimestamp ts
  | SetStopReason reason => setStopReason reason
  | EndSession => endSession
  | SetAuthorized => setAuthorized
  | SetIdTagDeauthorized => setIdTagDeauthorized
  | SetTransactionId id => setTransactionId id
  | SetMeterStart m => setMeterStart m
  | SetReservationId r => setReservationId r
  | SetStartTimestamp ts => setStartTimestamp ts
  | SetMeterStop m => setMeterStop m
  | SetStopTimestamp ts => setStopTimestamp ts
  | SetStopIdTag tag => setStopIdTag tag
  end.

(** A sequence of calls, first call first. *)
Definition mutate_all (ms : list Mutator) (t : Transaction) : Transaction :=
  fold_left (fun t m => mutate m t) ms t.

(** The calls that write a field read by one of the state predicates. *)
Definition writes_state (m : Mutator) : bool :=
  match m with
  | StartSetRequested | StopSetRequested | StopConfirm | EndSession => true
  | _ => false
  end.

Definition is_StopSetRequested (m : Mutator) : bool :=
  match m with
  | StopSetRequested => true
  | _ => false
  end.

(** The five state predicates of a transaction together. *)
Definition state_of (t : Transaction) : list bool :=
  [isPreparing t; isRunning t; isCompleted t; isAborted t; isActive t].

End TxOps.

(* ===================================================================== *)
(** ** Connection.cpp, sequences of sends and of events                  *)
(* ===================================================================== *)

Module ConnectionRuns.
Import Connection.

Section Runs.

Variable World : Type.

(** Calls of [OcppEchoSocket::sendTXT] one after another, each at its tick. *)
Fixpoint sendAll (msgs : list (Z * string)) (s : OcppEchoSocket World) (w : World)
  : list bool * OcppEchoSocket World * World :=
  match msgs with
  | [] => ([], s, w)
  | (now, out) :: rest =>
      let '(r, s', w') := sendTXT now out s w in
      let '(rs, s'', w'') := sendAll rest s' w' in
      (r :: rs, s'', w'')
  end.

(** The receive callback called on the messages directly. *)
Fixpoint deliverAll (cb : ReceiveTXTcallback World) (outs : list string) (w : World)
  : list bool * World :=
  match outs with
  | [] => ([], w)
  | out :: rest =>
      let (r, w') := cb out w in
      let (rs, w'') := deliverAll cb rest w' in
      (r :: rs, w'')
  end.

(** A WebSocket event: the tick at which the handler runs, the type, the
    payload. *)
Definition WsEvent : Type := (Z * WStype_t * string)%type.

Definition event_tick (e : WsEvent) : Z := fst (fst e).
Definition event_type (e : WsEvent) : WStype_t := snd (fst e).
Definition event_payload (e : WsEvent) : string := snd e.

(** The handler of [OcppClientSocket] run on events one after another. *)
Fixpoint handleAll (callback : ReceiveTXTcallback World) (evs : list WsEvent)
    (captureLastRecv : Z) (w : World) : Z * World :=
  match evs with
  | [] => (captureLastRecv, w)
  | e :: rest =>
      let (last', w') :=
        onEvent callback (event_tick e) (event_type e) (event_payload e) captureLastRecv w in
      handleAll callback rest last' w'
  end.

End Runs.

Arguments sendAll {World}.
Arguments deliverAll {World}.
Arguments handleAll {World}.

Definition is_text (ty : WStype_t) : bool :=
  match ty with
  | WStype_TEXT => true
  | _ => false
  end.

(** The payloads of the text frames among the events, in order. *)
Definition text_payloads (evs : list WsEvent) : list string :=
  map event_payload (filter (fun e => is_text (event_type e)) evs).

(** The event types in whose case the handler assigns [lastRecv]. *)
Definition assigns_lastRecv (ty : WStype_t) : bool :=
  match ty with
  | WStype_CONNECTED | WStype_TEXT | WStype_PING | WStype_PONG => true
  | _ => false
  end.

End ConnectionRuns.

(* ===================================================================== *)
(** ** ChargeControlCommon.cpp, the supported feature profiles           *)
(* ===================================================================== *)

Module FeatureProfiles.

Definition fpId : string := "Core,RemoteTrigger".
Definition fpIdCore : string := "Core".
Definition fpIdRTrigger : string := "RemoteTrigger".

(** [strstr(haystack, needle) != NULL]: the needle occurs in the haystack. *)
Fixpoint strstr (haystack needle : string) : bool :=
  String.prefix needle haystack
  || match haystack with
     | EmptyString => false
     | String _ rest => strstr rest needle
     end.

(** [std::string::empty] and [std::string::back]. *)
Definition empty (s : string) : bool :=
  match s with
  | EmptyString => true
  | _ => false
  end.

Fixpoint back (s : string) : option ascii :=
  match s with
  | EmptyString => None
  | String c EmptyString => Some c
  | String _ rest => back rest
  end.

(** The string built inside one of the two [if] blocks: the stored value, a
    comma unless the value is empty or ends with one, and the profile. *)
Definition append_profile (profile value : string) : string :=
  let fProfilePlus := value in
  let fProfilePlus :=
    if negb (empty fProfilePlus)
       && negb (match back fProfilePlus with
                | Some c => (c =? ",")%char
                | None => false
                end)
    then (fProfilePlus ++ ",")%string
    else fProfilePlus in
  (fProfilePlus ++ profile)%string.

Section Constructor.

(** [Configuration<const char*>] is declared in Configuration.h, which is not
    part of the sources at hand: the object is abstract, read through its
    conversion to [const char*] and written through [setValue]. *)
Variable Configuration : Type.
Variable getValue : Configuration -> string.
Variable setValue : string -> Configuration -> Configuration.

(** One of the two [if] blocks of the constructor. *)
Definition ensure_profile (profile : string) (fProfile : Configuration) : Configuration :=
  if negb (strstr (getValue fProfile) profile)
  then setValue (append_profile profile (getValue fProfile)) fProfile
  else fProfile.

(** Lines 39 to 52, on the object that the declaration of
    SupportedFeatureProfiles returned. *)
Definition complete_feature_profiles (fProfile : Configuration) : Configuration :=
  ensure_profile fpIdRTrigger (ensure_profile fpIdCore fProfile).

End Constructor.

(** What the constructor can append to the stored value. *)
Definition appended_suffixes : list string :=
  [ EmptyString; "Core"; ",Core"; "RemoteTrigger"; ",RemoteTrigger";
    "Core,RemoteTrigger"; ",Core,RemoteTrigger" ]%string.

(** A configuration object that is just its string. *)
Definition plain_getValue (c : string) : string := c.
Definition plain_setValue (v : string) (c : string) : string := v.

End FeatureProfiles.

(* ===================================================================== *)
(** * Properties                                                         *)
(* ===================================================================== *)

Import OcppTime Tx.

(** ** Transaction record *)

(** C2. The derived state predicates of a transaction are the stated boolean
    combinations of its fields: preparing iff the session is active and
    StartTransaction is not requested; running iff StartTransaction is
    requested and StopTransaction is not; completed iff StopTransaction is
    confirmed; aborted iff StartTransaction is not requested and the session
    is not active; active iff the session is active. *)
Theorem C2_derived_state_predicates (t : Transaction) :
  (isPreparing t = true <->
     active (session t) = true /\ requested (start_rpc (start t)) = false) /\
  (isRunning t = true <->
     requested (start_rpc (start t)) = true /\ requested (stop_rpc (stop t)) = false) /\
  (isCompleted t = true <-> confirmed (stop_rpc (stop t)) = true) /\
  (isAborted t = true <->
     requested (start_rpc (start t)) = false /\ active (session t) = false) /\
  (isActive t = true <-> active (session t) = true).
Proof.
  unfold isPreparing, isRunning, isCompleted, isAborted, isActive,
    isRequested, isConfirmed.
  repeat split;
    rewrite ?andb_true_iff, ?negb_true_iff in *; tauto.
Qed.

(** ** Scalar time *)

Lemma INFINITY_THLD_value : INFINITY_THLD = 2112923647.
Proof. reflexivity. Qed.


(** ** Connection adapters *)

Import Connection.

(** C8, read as stated (every text, binary, ping or pong frame sets
    [lastRecv] to the current tick), fails for a binary frame: it leaves
    [lastRecv] at its old value. *)
Lemma C8_binary_frame_keeps_lastRecv :
  fst (onEvent (World := unit) (fun _ w => (true, w)) 5 WStype_BIN "x" 0 tt) <> 5.
Proof. vm_compute. discriminate. Qed.

(** The same for a text frame that the receive callback fails to process. *)
Lemma text_frame_failed_keeps_lastRecv :
  fst (onEvent (World := unit) (fun _ w => (false, w)) 5 WStype_TEXT "x" 0 tt) = 0.
Proof. reflexivity. Qed.

(** C8 (amended). After an event the adapter's [lastRecv] is the current tick
    for a ping, a pong and the connect event, and for a text frame that the
    receive callback processed successfully; a text frame whose processing
    failed, a binary frame and every other event leave [lastRecv] unchanged. *)
Theorem C8_lastRecv_after_event (World : Type) (callback : ReceiveTXTcallback World)
    (now : Z) (type : WStype_t) (payload : string) (last : Z) (w : World) :
  fst (onEvent callback now type payload last w) =
    match type with
    | WStype_PING | WStype_PONG | WStype_CONNECTED => now
    | WStype_TEXT => if fst (callback payload w) then now else last
    | _ => last
    end.
Proof.
  destruct type; simpl; try reflexivity.
  destruct (callback payload w) as [ok w']; simpl.
  destruct ok; reflexivity.
Qed.

(** C10. [OcppEchoSocket::sendTXT] returns true and delivers nothing while the
    socket is not connected; when connected with a receive callback installed
    it sets [lastRecv] to the current tick, hands the message to the callback
    and returns the callback's result; when connected without a callback it
    returns false and changes nothing. *)
Theorem C10_echo_sendTXT (World : Type) (now : Z) (out : string)
    (s : OcppEchoSocket World) (w : World) :
  (connected s = false -> sendTXT now out s w = (true, s, w)) /\
  (forall cb, connected s = true -> receiveTXT s = Some cb ->
     sendTXT now out s w =
       (fst (cb out w), mkOcppEchoSocket true (Some cb) now, snd (cb out w))) /\
  (connected s = true -> receiveTXT s = None -> sendTXT now out s w = (false, s, w)).
Proof.
  unfold sendTXT. repeat split.
  - intros ->. reflexivity.
  - intros cb -> ->. simpl. destruct (cb out w). reflexivity.
  - intros -> ->. reflexivity.
Qed.

(** A recording callback: the world is the list of messages delivered. *)
Lemma C10_echo_sendTXT_witness :
  let rec : ReceiveTXTcallback (list string) := fun m log => (true, m :: log) in
  sendTXT 7 "a" (mkOcppEchoSocket false (Some rec) 0) [] =
    (true, mkOcppEchoSocket false (Some rec) 0, []) /\
  sendTXT 7 "a" (mkOcppEchoSocket true (Some rec) 0) [] =
    (true, mkOcppEchoSocket true (Some rec) 7, ["a"%string]) /\
  sendTXT 7 "a" (mkOcppEchoSocket (World := list string) true None 0) [] =
    (false, mkOcppEchoSocket true None 0, []).
Proof.
  intros rec. split; [|split].
  - apply (proj1 (C10_echo_sendTXT (list string) 7 "a"
                    (mkOcppEchoSocket false (Some rec) 0) [])).
    reflexivity.
  - apply (proj1 (proj2 (C10_echo_sendTXT (list string) 7 "a"
                    (mkOcppEchoSocket true (Some rec) 0) [])) rec); reflexivity.
  - apply (proj2 (proj2 (C10_echo_sendTXT (list string) 7 "a"
                    (mkOcppEchoSocket true None 0) []))); reflexivity.
Defined.

(** ** ChargeControlCommon *)

Import ChargeControl.

(** C9, read as stated (value [numConn - 1] for every [numConn >= 1]), fails
    for the largest [unsigned int]: the key is an [int] and holds [-2]. *)
Lemma C9_large_numConn_wraps :
  is_unsigned 4294967295 /\
  declared_value "NumberOfConnectors" (ChargeControlCommon_declarations 4294967295)
    = Some (CInt (-2)) /\
  -2 <> 4294967295 - 1.
Proof.
  split; [unfold is_unsigned; vm_compute; split; [discriminate|reflexivity]|].
  split; [reflexivity|discriminate].
Qed.

(** C9 (amended). For a constructor argument [numConn] with
    [1 <= numConn <= 2^31] the key NumberOfConnectors is declared with value
    [numConn - 1], and for [numConn = 0] with value 0. *)
Theorem C9_number_of_connectors (numConn : Z) :
  0 <= numConn <= 2 ^ 31 ->
  declared_value "NumberOfConnectors" (ChargeControlCommon_declarations numConn)
    = Some (CInt (if numConn =? 0 then 0 else numConn - 1)).
Proof.
  intros H. simpl. unfold numberOfConnectors_value, usub, int_of_unsigned, UINT_MOD.
  destruct (Z.eqb_spec numConn 0) as [->|Hne]; [reflexivity|].
  destruct (Z.leb_spec 1 numConn); [|lia].
  rewrite Z.mod_small by lia.
  destruct (Z.ltb_spec (numConn - 1) (2 ^ 31)); [reflexivity|lia].
Qed.

Lemma C9_number_of_connectors_witness :
  declared_value "NumberOfConnectors" (ChargeControlCommon_declarations 2)
    = Some (CInt 1).
Proof.
  apply (C9_number_of_connectors 2). lia.
Defined.

(** ** Parsing a JSON date *)

Lemma isdigit_nat (c : ascii) :
  isdigit c = ((48 <=? nat_of_ascii c)%nat && (nat_of_ascii c <=? 57)%nat).
Proof. destruct c as [[] [] [] [] [] [] [] []]; vm_compute; reflexivity. Qed.

Lemma nat_of_digit_char (n : Z) :
  Z.of_nat (nat_of_ascii (digit_char n)) = 48 + n mod 10.
Proof.
  unfold digit_char.
  pose proof (Z.mod_pos_bound n 10 ltac:(lia)) as H.
  rewrite nat_ascii_embedding by lia. lia.
Qed.

Lemma isdigit_digit_char (n : Z) : isdigit (digit_char n) = true.
Proof.
  rewrite isdigit_nat. pose proof (nat_of_digit_char n) as H.
  pose proof (Z.mod_pos_bound n 10 ltac:(lia)) as Hb.
  apply andb_true_iff. split; apply Nat.leb_le; lia.
Qed.

(** A digit is the character of its value. *)
Lemma digit_char_of_digit (c : ascii) :
  isdigit c = true ->
  0 <= Z.of_nat (nat_of_ascii c) - 48 <= 9 /\
  digit_char (Z.of_nat (nat_of_ascii c) - 48) = c.
Proof.
  rewrite isdigit_nat. intros H. apply andb_true_iff in H. destruct H as [H1 H2].
  apply Nat.leb_le in H1. apply Nat.leb_le in H2.
  split; [lia|]. unfold digit_char.
  rewrite Z.mod_small by lia.
  replace (48 + (Z.of_nat (nat_of_ascii c) - 48)) with (Z.of_nat (nat_of_ascii c)) by lia.
  rewrite Nat2Z.id. apply ascii_nat_embedding.
Qed.

Lemma digit_range (c : ascii) :
  isdigit c = true -> 0 <= Z.of_nat (nat_of_ascii c) - 48 <= 9.
Proof. intros H. apply (digit_char_of_digit c H). Qed.

Lemma digit_char_eq (c : ascii) (n : Z) :
  isdigit c = true ->
  n mod 10 = Z.of_nat (nat_of_ascii c) - 48 ->
  digit_char n = c.
Proof.
  intros Hc Hn. destruct (digit_char_of_digit c Hc) as [Hr He].
  transitivity (digit_char (Z.of_nat (nat_of_ascii c) - 48)); [|exact He].
  unfold digit_char. rewrite Hn.
  rewrite (Z.mod_small (Z.of_nat (nat_of_ascii c) - 48)) by lia. reflexivity.
Qed.

Lemma digit_at_write (n : Z) :
  Z.of_nat (nat_of_ascii (digit_char n)) - 48 = n mod 10.
Proof. rewrite nat_of_digit_char. lia. Qed.

Lemma two_digits (n : Z) : 0 <= n < 100 -> (n / 10) mod 10 * 10 + n mod 10 = n.
Proof. intros H. Z.div_mod_to_equations. lia. Qed.

Lemma four_digits (n : Z) :
  0 <= n < 10000 ->
  (n / 1000) mod 10 * 1000 + (n / 100) mod 10 * 100 + (n / 10) mod 10 * 10 + n mod 10 = n.
Proof. intros H. Z.div_mod_to_equations. lia. Qed.

Lemma noDays_bounds (m y : Z) : 28 <= noDays m y <= 31.
Proof.
  unfold noDays.
  destruct m as [|p|p]; try lia;
    do 4 (try (destruct p as [p|p|]; try lia));
    destruct (isLeapYear y); lia.
Qed.



(** Reading back what was written from a valid date gives the date. *)
Lemma setTime_write_date (t : Timestamp) (rest : string) (self : Timestamp) :
  valid_date t -> Timestamp_setTime (write_date t rest) self = (true, t).
Proof.
  intros (Hy & Hm & Hd & Hh & Hmi & Hs). unfold day_ok in Hd.
  pose proof (noDays_bounds (month t) (year t)) as Hn.
  unfold MIN_YEAR, MAX_YEAR in Hy.
  destruct t as [y mo d h mi se]. cbn [year month day hour minute second] in *.
  unfold Timestamp_setTime, write_date, write4, write2.
  cbn [year month day hour minute second String.length Nat.ltb Nat.leb JSONDATE_MINLENGTH].
  unfold digit_at. cbn [char_at String.get].
  rewrite !isdigit_digit_char. cbn [negb orb Ascii.eqb Bool.eqb].
  rewrite !digit_at_write.
  rewrite (four_digits y) by lia.
  rewrite (two_digits (mo + 1)), (two_digits (d + 1)), (two_digits h), (two_digits mi),
    (two_digits se) by lia.
  replace (mo + 1 - 1) with mo by lia. replace (d + 1 - 1) with d by lia.
  unfold MIN_YEAR, MAX_YEAR.
  destruct (Z.ltb_spec y 1970); [lia|]. destruct (Z.ltb_spec 2036 y); [lia|].
  destruct (Z.ltb_spec mo 0); [lia|]. destruct (Z.leb_spec 12 mo); [lia|].
  destruct (Z.ltb_spec d 0); [lia|]. destruct (Z.leb_spec (noDays mo y) d); [lia|].
  destruct (Z.leb_spec 24 h); [lia|]. destruct (Z.leb_spec 60 mi); [lia|].
  destruct (Z.leb_spec 60 se); [lia|]. reflexivity.
Qed.

(** What is accepted was written from a valid date, which is what is stored. *)
Lemma setTime_true_inv (s : string) (self : Timestamp) :
  fst (Timestamp_setTime s self) = true ->
  exists (t : Timestamp) (rest : string),
    valid_date t /\ s = write_date t rest /\ snd (Timestamp_setTime s self) = t.
Proof.
  intros H.
  do 19 (destruct s as [|? s]; [discriminate H|]).
  unfold Timestamp_setTime in H |- *.
  cbn [String.length Nat.ltb Nat.leb JSONDATE_MINLENGTH] in H |- *.
  unfold digit_at in H |- *. cbn [char_at String.get] in H |- *.
  match type of H with
  | fst (if ?b then _ else _) = true => destruct b eqn:Hshape; [discriminate H|]
  end.
  cbv zeta in H |- *.
  match type of H with
  | fst (if ?b then _ else _) = true => destruct b eqn:Hrange; [discriminate H|]
  end.
  clear H.
  rewrite !orb_false_iff, !negb_false_iff in Hshape.
  decompose [and] Hshape. clear Hshape.
  repeat match goal with
         | H : (_ =? _)%char = true |- _ => apply Ascii.eqb_eq in H; subst
         end.
  rewrite !orb_false_iff in Hrange.
  decompose [and] Hrange. clear Hrange.
  repeat match goal with
         | H : (_ <? _) = false |- _ => apply Z.ltb_ge in H
         | H : (_ <=? _) = false |- _ => apply Z.leb_gt in H
         end.
  repeat match goal with
         | H : isdigit ?c = true |- _ =>
             lazymatch goal with
             | _ : 0 <= Z.of_nat (nat_of_ascii c) - 48 <= 9 |- _ => fail
             | _ => pose proof (digit_range c H)
             end
         end.
  eexists. exists s. split; [|split; [|reflexivity]].
  - unfold valid_date, day_ok. cbn [year month day hour minute second snd].
    unfold MIN_YEAR, MAX_YEAR in *. repeat split; lia.
  - cbn [snd]. unfold write_date, write4, write2.
    cbn [year month day hour minute second].
    repeat f_equal;
      (symmetry; apply digit_char_eq; [assumption | Z.div_mod_to_equations; lia]).
Qed.

(** The check accepts exactly the strings that start with a valid date
    written in 19 characters. *)
Lemma setTime_accepts_json_date (s : string) :
  setTime_accepts s = true <-> is_json_date s.
Proof.
  unfold setTime_accepts. split.
  - intros H.
    destruct (setTime_true_inv s Timestamp_default H) as (t & rest & Hv & Hs & _).
    exists t, rest. split; assumption.
  - intros (t & rest & Hv & ->). rewrite setTime_write_date by assumption. reflexivity.
Qed.



(** The date of the header's comment, fraction and [Z] included, the same 19
    characters followed by nothing, and the last day of February in a leap
    year. *)
Example setTime_header_example :
  Timestamp_setTime "2020-10-01T20:53:32.486Z" Timestamp_default
    = (true, mkTimestamp 2020 9 0 20 53 32) /\
  Timestamp_setTime "2020-10-01T20:53:32" Timestamp_default
    = (true, mkTimestamp 2020 9 0 20 53 32) /\
  Timestamp_setTime "2024-02-29T23:59:59Z" Timestamp_default
    = (true, mkTimestamp 2024 1 28 23 59 59).
Proof. repeat split; reflexivity. Qed.

(** Strings of another shape, and strings of the shape that name no date of
    the data model: a month 13, a day 0, a 29th of February outside a leap
    year, an hour 24, a second 60, a year before 1970 and one after 2036. *)
Example setTime_rejects :
  fst (Timestamp_setTime "2020-10-01 20:53:32.486Z" Timestamp_default) = false /\
  fst (Timestamp_setTime "2020-10-01T20:53" Timestamp_default) = false /\
  fst (Timestamp_setTime EmptyString Timestamp_default) = false /\
  fst (Timestamp_setTime "2023-13-45T99:99:99" Timestamp_default) = false /\
  fst (Timestamp_setTime "0000-00-00T00:00:00" Timestamp_default) = false /\
  fst (Timestamp_setTime "2023-01-00T00:00:00" Timestamp_default) = false /\
  fst (Timestamp_setTime "2023-02-29T00:00:00" Timestamp_default) = false /\
  fst (Timestamp_setTime "2023-01-01T24:00:00" Timestamp_default) = false /\
  fst (Timestamp_setTime "2023-01-01T00:00:60" Timestamp_default) = false /\
  fst (Timestamp_setTime "1969-12-31T23:59:59" Timestamp_default) = false /\
  fst (Timestamp_setTime "2037-01-01T00:00:00" Timestamp_default) = false.
Proof. repeat split; reflexivity. Qed.



(** ** Calendar arithmetic *)

Lemma days_before_year_succ (y : Z) :
  days_before_year (y + 1) = days_before_year y + year_length y.
Proof.
  unfold days_before_year, year_length, isLeapYear.
  replace (y + 1 - 1) with y by lia.
  assert (H4 : y / 4 = (y - 1) / 4 + (if y mod 4 =? 0 then 1 else 0)).
  { destruct (Z.eqb_spec (y mod 4) 0); Z.div_mod_to_equations; lia. }
  assert (H100 : y / 100 = (y - 1) / 100 + (if y mod 100 =? 0 then 1 else 0)).
  { destruct (Z.eqb_spec (y mod 100) 0); Z.div_mod_to_equations; lia. }
  assert (H400 : y / 400 = (y - 1) / 400 + (if y mod 400 =? 0 then 1 else 0)).
  { destruct (Z.eqb_spec (y mod 400) 0); Z.div_mod_to_equations; lia. }
  assert (Ha : y mod 100 = 0 -> y mod 4 = 0) by (intros; Z.div_mod_to_equations; lia).
  assert (Hb : y mod 400 = 0 -> y mod 100 = 0) by (intros; Z.div_mod_to_equations; lia).
  rewrite H4, H100, H400.
  destruct (Z.eqb_spec (y mod 4) 0), (Z.eqb_spec (y mod 100) 0),
    (Z.eqb_spec (y mod 400) 0); cbn [andb orb negb]; lia.
Qed.

Lemma days_before_month_succ (y m : Z) :
  0 <= m -> days_before_month y (m + 1) = days_before_month y m + noDays m y.
Proof.
  intros Hm. unfold days_before_month.
  replace (Z.to_nat (m + 1)) with (S (Z.to_nat m)) by lia.
  simpl. rewrite Z2Nat.id by assumption. reflexivity.
Qed.

Lemma days_before_month_0 (y : Z) : days_before_month y 0 = 0.
Proof. reflexivity. Qed.

Lemma days_before_month_11 (y : Z) :
  days_before_month y 11 + noDays 11 y = year_length y.
Proof.
  unfold days_before_month, year_length. simpl. destruct (isLeapYear y); reflexivity.
Qed.

(** Carrying days keeps the month within the year and the day count since the
    epoch. *)
Lemma carry_days_preserves (fuel : nat) :
  forall y m d, 0 <= m <= 11 ->
    let '(y', m', d') := carry_days fuel y m d in
    0 <= m' <= 11 /\ days_since_epoch y' m' d' = days_since_epoch y m d.
Proof.
  induction fuel as [|fuel IH]; intros y m d Hm; simpl.
  - split; [assumption|reflexivity].
  - destruct (Z.ltb_spec d 0).
    + destruct (Z.eqb_spec m 0) as [->|Hm0].
      * specialize (IH (y - 1) 11 (d + noDays 11 (y - 1)) ltac:(lia)).
        destruct (carry_days fuel (y - 1) 11 (d + noDays 11 (y - 1))) as [[y' m'] d'].
        destruct IH as [Hm' IH]. split; [assumption|]. rewrite IH.
        unfold days_since_epoch.
        pose proof (days_before_year_succ (y - 1)) as Hy.
        replace (y - 1 + 1) with y in Hy by lia.
        pose proof (days_before_month_11 (y - 1)).
        rewrite days_before_month_0. lia.
      * specialize (IH y (m - 1) (d + noDays (m - 1) y) ltac:(lia)).
        destruct (carry_days fuel y (m - 1) (d + noDays (m - 1) y)) as [[y' m'] d'].
        destruct IH as [Hm' IH]. split; [assumption|]. rewrite IH.
        unfold days_since_epoch.
        pose proof (days_before_month_succ y (m - 1) ltac:(lia)) as Hs.
        replace (m - 1 + 1) with m in Hs by lia. lia.
    + destruct (Z.leb_spec (noDays m y) d).
      * destruct (Z.eqb_spec m 11) as [->|Hm11].
        -- specialize (IH (y + 1) 0 (d - noDays 11 y) ltac:(lia)).
           destruct (carry_days fuel (y + 1) 0 (d - noDays 11 y)) as [[y' m'] d'].
           destruct IH as [Hm' IH]. split; [assumption|]. rewrite IH.
           unfold days_since_epoch.
           pose proof (days_before_year_succ y).
           pose proof (days_before_month_11 y).
           rewrite days_before_month_0. lia.
        -- specialize (IH y (m + 1) (d - noDays m y) ltac:(lia)).
           destruct (carry_days fuel y (m + 1) (d - noDays m y)) as [[y' m'] d'].
           destruct IH as [Hm' IH]. split; [assumption|]. rewrite IH.
           unfold days_since_epoch.
           pose proof (days_before_month_succ y m ltac:(lia)). lia.
      * split; [assumption|reflexivity].
Qed.

(** Adding seconds to a timestamp adds them to its scalar value. *)
Lemma toScalar_add (t : Timestamp) (secs : Z) :
  month_ok t ->
  month_ok (Timestamp_add t secs) /\
  toScalar (Timestamp_add t secs) = toScalar t + secs.
Proof.
  intros Hm. unfold Timestamp_add.
  set (s := second t + secs).
  set (mi := minute t + s / 60).
  set (h := hour t + mi / 60).
  set (d := day t + h / 24).
  pose proof (carry_days_preserves (S (Z.to_nat (Z.abs d))) (year t) (month t) d Hm) as H.
  destruct (carry_days (S (Z.to_nat (Z.abs d))) (year t) (month t) d) as [[y' m'] d'].
  destruct H as [Hm' H].
  split; [exact Hm'|].
  unfold toScalar; simpl. rewrite H.
  unfold days_since_epoch.
  subst d h mi s.
  Z.div_mod_to_equations. lia.
Qed.

Lemma toScalar_sub (t : Timestamp) (secs : Z) :
  month_ok t -> toScalar (Timestamp_sub t secs) = toScalar t - secs.
Proof.
  intros Hm. unfold Timestamp_sub.
  rewrite (proj2 (toScalar_add t (- secs) Hm)). lia.
Qed.

Lemma saturate_small (d : Z) : - OTIME_MAX <= d <= OTIME_MAX -> saturate d = d.
Proof.
  intros H. unfold saturate.
  destruct (Z.ltb_spec OTIME_MAX d); [lia|].
  destruct (Z.ltb_spec d (- OTIME_MAX)); [lia|reflexivity].
Qed.

Lemma carry_days_done (fuel : nat) (y m d : Z) :
  day_ok y m d -> carry_days fuel y m d = (y, m, d).
Proof.
  unfold day_ok. intros H. destruct fuel; [reflexivity|]. simpl.
  destruct (Z.ltb_spec d 0); [lia|].
  destruct (Z.leb_spec (noDays m y) d); [lia|reflexivity].
Qed.

(** With fuel beyond the distance in days, carrying ends on a day of the
    month reached. *)
Lemma carry_days_normal (fuel : nat) :
  forall y m d, 0 <= m <= 11 -> Z.abs d < 28 * Z.of_nat fuel ->
    let '(y', m', d') := carry_days fuel y m d in
    0 <= m' <= 11 /\ day_ok y' m' d'.
Proof.
  induction fuel as [|fuel IH]; intros y m d Hm Hd.
  - lia.
  - cbn [carry_days].
    destruct (Z.ltb_spec d 0) as [Hneg|Hpos].
    + set (y1 := if m =? 0 then y - 1 else y).
      set (m1 := if m =? 0 then 11 else m - 1).
      assert (Hm1 : 0 <= m1 <= 11) by (subst m1; destruct (Z.eqb_spec m 0); lia).
      pose proof (noDays_bounds m1 y1) as Hn.
      destruct (Z.ltb_spec (d + noDays m1 y1) 0) as [Hstill|Hin].
      * apply IH; [assumption|lia].
      * rewrite carry_days_done by (unfold day_ok; lia).
        split; [assumption|unfold day_ok; lia].
    + destruct (Z.leb_spec (noDays m y) d) as [Hover|Hin].
      * set (y1 := if m =? 11 then y + 1 else y).
        set (m1 := if m =? 11 then 0 else m + 1).
        assert (Hm1 : 0 <= m1 <= 11) by (subst m1; destruct (Z.eqb_spec m 11); lia).
        pose proof (noDays_bounds m y) as Hn.
        apply IH; [assumption|lia].
      * split; [assumption|unfold day_ok; lia].
Qed.

(** The sum of a timestamp in calendar form and seconds is in calendar form in
    every field. *)
Lemma Timestamp_add_normal (t : Timestamp) (secs : Z) :
  month_ok t ->
  let r := Timestamp_add t secs in
  0 <= month r <= 11 /\ day_ok (year r) (month r) (day r) /\
  0 <= hour r < 24 /\ 0 <= minute r < 60 /\ 0 <= second r < 60.
Proof.
  intros Hm. unfold Timestamp_add.
  set (s := second t + secs).
  set (mi := minute t + s / 60).
  set (h := hour t + mi / 60).
  set (d := day t + h / 24).
  pose proof (carry_days_normal (S (Z.to_nat (Z.abs d))) (year t) (month t) d Hm) as H.
  destruct (carry_days (S (Z.to_nat (Z.abs d))) (year t) (month t) d) as [[y' m'] d'].
  cbn [year month day hour minute second].
  destruct H as [Hm' Hd']; [lia|].
  repeat split; try apply Hm'; try apply Hd';
    try (apply Z.mod_pos_bound; lia).
Qed.

(** ** The transaction coordinator *)

Import Coordinator.

Lemma setTime_valid now iso s :
  setTime_accepts iso = true ->
  setTime now iso s =
    set_clock (mkTime (snd (Timestamp_setTime iso Timestamp_default)) now true) s.
Proof.
  intros H. unfold setTime, Time_setTime. unfold setTime_accepts in H.
  destruct (Timestamp_setTime iso Timestamp_default) as [ok ts].
  simpl in H. subst ok. reflexivity.
Qed.

(** A loop pass leaves a transaction alone whose StartTransaction is requested
    and whose session is active or whose StopTransaction is requested, up to
    the emission of its RPCs. *)
Lemma check_connection_timeout_requested cfg now inp s t :
  head s = Some t -> isRequested (start_rpc (start t)) = true ->
  check_connection_timeout cfg now inp s = set_timeout_since None s.
Proof.
  intros Hh Hr. unfold check_connection_timeout, timeout_condition.
  rewrite Hh, Hr, andb_false_r. reflexivity.
Qed.

Lemma try_start_requested cfg now inp s t :
  head s = Some t -> isRequested (start_rpc (start t)) = true ->
  try_start cfg now inp s = s.
Proof.
  intros Hh Hr. unfold try_start, start_conditions.
  rewrite Hh, Hr, andb_false_r. reflexivity.
Qed.


(** What [try_stop] keeps. *)
Lemma try_stop_frame now inp s t :
  head s = Some t ->
  exists t', head (try_stop now inp s) = Some t' /\ start t' = start t /\
    clock (try_stop now inp s) = clock s /\
    connected (try_stop now inp s) = connected s /\
    start_tick (try_stop now inp s) = start_tick s /\
    sent (try_stop now inp s) = sent s.
Proof.
  intros Hh. unfold try_stop. rewrite Hh.
  destruct (isRunning t && negb (isActive t)).
  - eexists. split; [reflexivity|]. destruct (timeIsSet (clock s)); repeat split.
  - exists t. rewrite Hh. repeat split.
Qed.

(** A requested, unconfirmed StartTransaction without timestamp and without
    tick anchor: the transaction is dropped and nothing is sent. *)
Lemma emit_start_lost s t :
  head s = Some t ->
  isRequested (start_rpc (start t)) = true ->
  isConfirmed (start_rpc (start t)) = false ->
  is_defined (getStartTimestamp t) = false ->
  start_tick s = None ->
  head (emit_start s) = None /\ sent (emit_start s) = sent s.
Proof.
  intros Hh Hr Hc Hu Ha. unfold emit_start, start_timestamp_to_send.
  rewrite Hh, Hr, Hc, Hu, Ha. split; reflexivity.
Qed.

Lemma emit_stop_none s : head s = None -> emit_stop s = s.
Proof. intros Hh. unfold emit_stop. rewrite Hh. reflexivity. Qed.

Lemma tick_lost_start cfg now inp s t :
  connected s = true -> timeIsSet (clock s) = true ->
  head s = Some t ->
  isRequested (start_rpc (start t)) = true ->
  isConfirmed (start_rpc (start t)) = false ->
  is_defined (getStartTimestamp t) = false ->
  start_tick s = None ->
  head (tick cfg now inp s) = None /\ sent (tick cfg now inp s) = sent s.
Proof.
  intros Hconn Hval Hh Hr Hc Hu Ha. unfold tick.
  rewrite (check_connection_timeout_requested cfg now inp s t Hh Hr).
  rewrite (try_start_requested cfg now inp _ t) by assumption.
  destruct (try_stop_frame now inp (set_timeout_since None s) t Hh)
    as (t' & Hh' & Hst & Hclk & Hcn & Htk & Hsent).
  set (s1 := try_stop now inp (set_timeout_since None s)) in *.
  unfold emit_boundaries. rewrite Hcn, Hclk. cbn [set_timeout_since connected clock].
  rewrite Hconn, Hval. cbn [andb].
  destruct (emit_start_lost s1 t' Hh') as [Hnone Hs1].
  - rewrite Hst; assumption.
  - rewrite Hst; assumption.
  - unfold getStartTimestamp. rewrite Hst. exact Hu.
  - rewrite Htk. exact Ha.
  - rewrite (emit_stop_none _ Hnone). rewrite Hnone, Hs1, Hsent. split; reflexivity.
Qed.

(** C3. A transaction whose StartTransaction was requested while the clock
    was invalid (its start timestamp is undefined and StartTransaction is not
    confirmed) and that then goes through a reboot, which loses the tick
    anchor: once the transport is connected again and the time is set, the
    next loop pass sends neither StartTransaction nor StopTransaction, drops
    the record, and no running transaction remains. *)
Theorem C3_lost_start_is_dropped (cfg : Config) (s : State) (t : Transaction)
    (t_reboot t_conn t_set now : Z) (iso : string) (inp : Inputs) :
  head s = Some t ->
  isRequested (start_rpc (start t)) = true ->
  isConfirmed (start_rpc (start t)) = false ->
  is_defined (getStartTimestamp t) = false ->
  is_json_date iso ->
  let s' := run cfg (reconnect_events iso t_reboot t_conn t_set now inp) s in
  sent s' = sent s /\ head s' = None /\ transaction_running s' = false.
Proof.
  intros Hh Hr Hc Hu Hiso s'. subst s'.
  apply setTime_accepts_json_date in Hiso.
  unfold run, reconnect_events. cbn [fold_left step].
  rewrite setTime_valid by assumption.
  destruct (tick_lost_start cfg now inp
              (set_clock (mkTime (snd (Timestamp_setTime iso Timestamp_default)) t_set true)
                 (set_connected true (reboot s))) t) as [Hnone Hsent];
    try assumption; try reflexivity.
  unfold transaction_running. rewrite Hnone, Hsent. repeat split.
Qed.

(** The states of the scenarios are the runs they are named after. *)
Example S3_begun_run :
  S3_begun = run Config_default [ (0, EvBegin "mIdTag") ] (State_init true).
Proof. vm_compute. reflexivity. Qed.

Example S5_started_run :
  S5_started =
    run preboot_config
      [ (0, EvBeginAuthorized "mIdTag"); (0, EvTick (no_plug_sensor 0)) ]
      (State_init false).
Proof. vm_compute. reflexivity. Qed.

Example S6_stopped_run :
  S6_stopped =
    run preboot_config
      [ (0, EvSetTime "2023-02-01T00:00:00.000Z");
        (0, EvBeginAuthorized "mIdTag"); (0, EvTick (no_plug_sensor 0));
        (1000, EvReboot); (1000, EvSetConnected false); (1000, EvTick (no_plug_sensor 0));
        (2000, EvEnd "Local"); (2000, EvTick (no_plug_sensor 0)) ]
      (State_init true) /\
  transaction_running
    (run preboot_config
       [ (0, EvSetTime "2023-02-01T00:00:00.000Z");
         (0, EvBeginAuthorized "mIdTag"); (0, EvTick (no_plug_sensor 0));
         (1000, EvReboot); (1000, EvSetConnected false); (1000, EvTick (no_plug_sensor 0)) ]
       (State_init true)) = true.
Proof. split; vm_compute; reflexivity. Qed.

(** Scenario S5. *)
Lemma C3_lost_start_is_dropped_witness :
  let s' := run preboot_config
              (reconnect_events BASE_TIME 0 1000 1000 1000 (no_plug_sensor 0)) S5_started in
  transaction_running S5_started = true /\
  sent s' = [] /\ head s' = None /\ transaction_running s' = false.
Proof.
  split; [reflexivity|].
  apply (C3_lost_start_is_dropped preboot_config S5_started (head_transaction S5_started)
           0 1000 1000 1000 BASE_TIME (no_plug_sensor 0));
    try reflexivity.
  apply (proj1 (setTime_accepts_json_date BASE_TIME)). reflexivity.
Defined.




(** A StartTransaction and a StopTransaction taken with the clock invalid go
    out with their tick anchors rewritten by the clock. *)
Lemma emit_start_backdated s t event_tick :
  head s = Some t ->
  isRequested (start_rpc (start t)) = true ->
  isConfirmed (start_rpc (start t)) = false ->
  is_defined (getStartTimestamp t) = false ->
  start_tick s = Some event_tick ->
  sent (emit_start s) =
    sent s ++ [StartTransaction (connectorId t) (getIdTag t)
                 (adjustPrebootTimestamp (clock s) event_tick) (getMeterStart t)].
Proof.
  intros Hh Hr Hc Hu Ha. unfold emit_start, start_timestamp_to_send.
  rewrite Hh, Hr, Hc, Hu, Ha. reflexivity.
Qed.

Lemma emit_stop_backdated s t event_tick :
  head s = Some t ->
  RpcSync_isCompleted (start_rpc (start t)) = true ->
  isRequested (stop_rpc (stop t)) = true ->
  isConfirmed (stop_rpc (stop t)) = false ->
  is_defined (getStopTimestamp t) = false ->
  stop_tick s = Some event_tick ->
  sent (emit_stop s) =
    sent s ++ [StopTransaction (getTransactionId t)
                 (adjustPrebootTimestamp (clock s) event_tick)
                 (getMeterStop t) (getStopReason t)].
Proof.
  intros Hh Hs Hr Hc Hu Ha. unfold emit_stop, stop_timestamp_to_send.
  rewrite Hh, Hs, Hr, Hc, Hu, Ha. reflexivity.
Qed.

(** Rounding the tick distance down to seconds moves the timestamp by less
    than a second. *)
Lemma backdating_error (base_s set_tick event_tick : Z) :
  Z.abs (1000 * (base_s - (set_tick - event_tick) / 1000)
         - (1000 * base_s - (set_tick - event_tick))) <= 1000.
Proof. Z.div_mod_to_equations. lia. Qed.

(** C1. With pre-boot transactions enabled, a transaction is begun offline
    with the clock invalid, its StartTransaction is taken at tick [t_start]
    and its StopTransaction at tick [t_stop]; then the clock is set at tick
    [t_set] to the time [base] and the transport connects.  The next loop pass
    sends StartTransaction with [base - (t_set - t_start)/1000] and
    StopTransaction with [base - (t_set - t_stop)/1000]: each lies the whole
    seconds of its tick distance before [base], less than a second off the
    exact distance. *)
Theorem C1_preboot_backdating (cfg : Config) (s0 : State)
    (t_begin t_start t_end t_stop t_set t_conn now : Z)
    (id_tag reason iso : string) (base : Timestamp) (inp1 inp2 inp3 : Inputs) :
  AO_PreBootTransactions cfg = true ->
  head s0 = None -> timeIsSet (clock s0) = false -> connected s0 = false ->
  plug_permits inp1 = true ->
  Timestamp_setTime iso Timestamp_default = (true, base) ->
  month_ok base ->
  let s' := run cfg [ (t_begin, EvBeginAuthorized id_tag); (t_start, EvTick inp1);
                      (t_end, EvEnd reason); (t_stop, EvTick inp2);
                      (t_set, EvSetTime iso); (t_conn, EvSetConnected true);
                      (now, EvTick inp3) ] s0 in
  let ts_start := Timestamp_sub base ((t_set - t_start) / 1000) in
  let ts_stop := Timestamp_sub base ((t_set - t_stop) / 1000) in
  sent s' = sent s0 ++
    [ StartTransaction 1 (snprintf_s IDTAG_LEN_MAX id_tag) ts_start (meter_reading inp1);
      StopTransaction (last_transaction_id s0 + 1) ts_stop (meter_reading inp2)
        (snprintf_s REASON_LEN_MAX reason) ] /\
  toScalar base - toScalar ts_start = (t_set - t_start) / 1000 /\
  toScalar base - toScalar ts_stop = (t_set - t_stop) / 1000 /\
  Z.abs (1000 * toScalar ts_start - (1000 * toScalar base - (t_set - t_start))) <= 1000 /\
  Z.abs (1000 * toScalar ts_stop - (1000 * toScalar base - (t_set - t_stop))) <= 1000.
Proof.
  intros Hpre Hh Hval Hconn Hplug Hiso Hm s' ts_start ts_stop.
  assert (Hs1 : toScalar ts_start = toScalar base - (t_set - t_start) / 1000)
    by (apply toScalar_sub; assumption).
  assert (Hs2 : toScalar ts_stop = toScalar base - (t_set - t_stop) / 1000)
    by (apply toScalar_sub; assumption).
  split; [|rewrite Hs1, Hs2; repeat split; try lia; apply backdating_error].
  subst s' ts_start ts_stop. unfold run. cbn [fold_left step].
  unfold setTime, Time_setTime. rewrite Hiso.
  destruct s0 as [[cb ct cv] conn h st sp tsn nr id snt].
  destruct cfg as [cto pre]. destruct inp1 as [[[|]|] ? ? ? ? ?];
    cbn [head clock timeIsSet connected AO_PreBootTransactions] in *;
    try discriminate Hplug; subst.
  all: cbn [sent last_transaction_id meter_reading];
    match goal with
    | |- _ = ?l ++ [?a; ?b] =>
        transitivity ((l ++ [a]) ++ [b]); [reflexivity | rewrite <- app_assoc; reflexivity]
    end.
Qed.

(** Scenario S4: StartTransaction two hours and StopTransaction one hour
    before BASE_TIME. *)
Lemma C1_preboot_backdating_witness :
  sent (run preboot_config S4_events (State_init false)) =
    [ StartTransaction 1 "mIdTag" (mkTimestamp 2022 11 30 22 0 0) 0;
      StopTransaction 1 (mkTimestamp 2022 11 30 23 0 0) 0 "Local" ] /\
  toScalar (mkTimestamp 2023 0 0 0 0 0) - toScalar (mkTimestamp 2022 11 30 22 0 0) = 7200 /\
  toScalar (mkTimestamp 2023 0 0 0 0 0) - toScalar (mkTimestamp 2022 11 30 23 0 0) = 3600.
Proof.
  pose proof (C1_preboot_backdating preboot_config (State_init false)
                0 0 3600000 3600000 7200000 7200000 7200000
                "mIdTag" "Local" BASE_TIME (mkTimestamp 2023 0 0 0 0 0)
                (no_plug_sensor 0) (no_plug_sensor 0) (no_plug_sensor 0)
                eq_refl eq_refl eq_refl eq_refl eq_refl eq_refl
                (conj (Z.le_refl 0) (Zle_bool_imp_le 0 11 eq_refl))) as H.
  destruct H as (H1 & H2 & H3 & _).
  split; [exact H1|]. split; [exact H2|exact H3].
Defined.













(** The statuses after the session of a started transaction has ended and
    StopTransaction is requested, on a healthy connector: Finishing while the
    connector is plugged, Available otherwise. *)
Lemma status_after_session inp s t :
  head s = Some t ->
  isRequested (start_rpc (start t)) = true ->
  isRequested (stop_rpc (stop t)) = true ->
  isActive t = false ->
  connector_faulted inp = false -> availability inp = Operative ->
  reservation_active inp = false ->
  status inp s = if is_plugged inp then Finishing else Available.
Proof.
  intros Hh Hr Hp Ha Hf Hav Hres.
  unfold status, ending_session_grace, transaction_running, session_active, isRunning.
  rewrite Hh, Hr, Hp, Ha, Hf, Hav, Hres. cbn [negb andb orb].
  destruct (is_plugged inp); reflexivity.
Qed.

(** The test case "via session management - deauthorize first": a started
    transaction, the session ended with the connector plugged, then the
    connector unplugged. *)
Example status_deauthorize_first :
  let s1 := run Config_default
              [ (0, EvSetTime BASE_TIME); (0, EvBeginAuthorized "mIdTag");
                (0, EvTick (no_plug_sensor 0)) ] (State_init true) in
  let s2 := run Config_default [ (1000, EvEnd "Local"); (1000, EvTick (with_plug true)) ] s1 in
  let s3 := run Config_default [ (2000, EvTick (with_plug false)) ] s2 in
  status (no_plug_sensor 0) s1 = Charging /\
  status (with_plug true) s2 = Finishing /\
  status (with_plug false) s3 = Available.
Proof. vm_compute. repeat split. Qed.




(* ===================================================================== *)
(** * Further properties of the transaction record (Transaction.h)       *)
(* ===================================================================== *)

Import TxOps.

Ltac destruct_tx t :=
  destruct t as [[? ? ? ? ? ?] [[? ?] [? ? ?] [?]] [[? ?] [? ? ? ?]] ? ? ?].

(** X1. No transaction is in two of the states Preparing, Running and Aborted
    at once, and it is in one of Preparing and Aborted exactly as long as
    StartTransaction is not requested. *)
Theorem tx_states_exclusive (t : Transaction) :
  isPreparing t && isRunning t = false /\
  isPreparing t && isAborted t = false /\
  isRunning t && isAborted t = false /\
  xorb (isPreparing t) (isAborted t) = negb (isRequested (start_rpc (start t))).
Proof.
  unfold isPreparing, isRunning, isAborted, isRequested.
  destruct (active (session t)), (requested (start_rpc (start t))),
    (requested (stop_rpc (stop t))); repeat split.
Qed.

(** X2. [endSession] does what the comment on [ChargingSession::active] says:
    the transaction is no longer active nor preparing, it is aborted exactly
    when StartTransaction was not requested before, whether it is running or
    completed does not change, and a second call changes nothing. *)
Theorem endSession_effect (t : Transaction) :
  isActive (endSession t) = false /\
  isPreparing (endSession t) = false /\
  isAborted (endSession t) = negb (isRequested (start_rpc (start t))) /\
  isRunning (endSession t) = isRunning t /\
  isCompleted (endSession t) = isCompleted t /\
  endSession (endSession t) = endSession t.
Proof.
  destruct_tx t. cbn. repeat split. apply andb_true_r.
Qed.

(** X3. The life of a transaction that is preparing and whose StopTransaction
    is neither requested nor confirmed: requesting StartTransaction makes it
    running, the confirmation and the end of the session leave it running
    (the session no longer active), requesting StopTransaction ends the
    running state, and the confirmation makes it completed.  The states are
    listed as preparing, running, completed, aborted, active. *)
Theorem transaction_lifecycle (t : Transaction) :
  isPreparing t = true ->
  isRequested (stop_rpc (stop t)) = false ->
  isConfirmed (stop_rpc (stop t)) = false ->
  state_of (mutate_all [StartSetRequested] t) = [false; true; false; false; true] /\
  state_of (mutate_all [StartSetRequested; StartConfirm] t)
    = [false; true; false; false; true] /\
  state_of (mutate_all [StartSetRequested; StartConfirm; EndSession] t)
    = [false; true; false; false; false] /\
  state_of (mutate_all [StartSetRequested; StartConfirm; EndSession; StopSetRequested] t)
    = [false; false; false; false; false] /\
  state_of (mutate_all [StartSetRequested; StartConfirm; EndSession; StopSetRequested;
                        StopConfirm] t)
    = [false; false; true; false; false].
Proof.
  destruct_tx t. unfold isPreparing, isRequested, isConfirmed. cbn.
  intros Hp Hr Hc. apply andb_true_iff in Hp. destruct Hp as [Ha Hs].
  apply negb_true_iff in Hs. subst. repeat split.
Qed.

(** The life of a new transaction. *)
Lemma transaction_lifecycle_witness :
  state_of (mutate_all [StartSetRequested; StartConfirm; EndSession; StopSetRequested;
                        StopConfirm] (Transaction_new 1 1 false))
    = [false; false; true; false; false].
Proof.
  apply (transaction_lifecycle (Transaction_new 1 1 false)); reflexivity.
Defined.

(** A boolean reading of the transaction that no single call turns from true
    to false stays true along every sequence of calls. *)
Lemma latch_mutate_all (f : Transaction -> bool) :
  (forall m t, f t = true -> f (mutate m t) = true) ->
  forall ms t, f t = true -> f (mutate_all ms t) = true.
Proof.
  intros Hstep ms. induction ms as [|m ms IH]; intros t Ht.
  - exact Ht.
  - cbn [mutate_all fold_left]. apply IH. apply Hstep. exact Ht.
Qed.

Ltac latch_step :=
  let m := fresh "m" in let t := fresh "t" in
  intros m t; destruct_tx t; destruct m; cbn; intros; subst; reflexivity.

Lemma start_requested_latched (ms : list Mutator) (t : Transaction) :
  isRequested (start_rpc (start t)) = true ->
  isRequested (start_rpc (start (mutate_all ms t))) = true.
Proof. apply (latch_mutate_all (fun t => isRequested (start_rpc (start t)))). latch_step. Qed.

Lemma start_confirmed_latched (ms : list Mutator) (t : Transaction) :
  isConfirmed (start_rpc (start t)) = true ->
  isConfirmed (start_rpc (start (mutate_all ms t))) = true.
Proof. apply (latch_mutate_all (fun t => isConfirmed (start_rpc (start t)))). latch_step. Qed.

Lemma stop_requested_latched (ms : list Mutator) (t : Transaction) :
  isRequested (stop_rpc (stop t)) = true ->
  isRequested (stop_rpc (stop (mutate_all ms t))) = true.
Proof. apply (latch_mutate_all (fun t => isRequested (stop_rpc (stop t)))). latch_step. Qed.

Lemma stop_confirmed_latched (ms : list Mutator) (t : Transaction) :
  isConfirmed (stop_rpc (stop t)) = true ->
  isConfirmed (stop_rpc (stop (mutate_all ms t))) = true.
Proof. apply (latch_mutate_all (fun t => isConfirmed (stop_rpc (stop t)))). latch_step. Qed.

Lemma authorized_latched (ms : list Mutator) (t : Transaction) :
  isAuthorized t = true -> isAuthorized (mutate_all ms t) = true.
Proof. apply (latch_mutate_all isAuthorized). latch_step. Qed.

Lemma deauthorized_latched (ms : list Mutator) (t : Transaction) :
  isIdTagDeauthorized t = true -> isIdTagDeauthorized (mutate_all ms t) = true.
Proof. apply (latch_mutate_all isIdTagDeauthorized). latch_step. Qed.

Lemma inactive_latched (ms : list Mutator) (t : Transaction) :
  isActive t = false -> isActive (mutate_all ms t) = false.
Proof.
  intros H. apply negb_true_iff. apply (latch_mutate_all (fun t => negb (isActive t))).
  - intros m t0. destruct_tx t0. destruct m; cbn; intros; subst; auto.
  - apply negb_true_iff. exact H.
Qed.

(** X4. No sequence of calls of the public mutators takes anything back: a
    requested or confirmed StartTransaction or StopTransaction stays so, an
    authorized or deauthorized session stays so, and an ended session stays
    ended. *)
Theorem flags_never_cleared (ms : list Mutator) (t : Transaction) :
  let t' := mutate_all ms t in
  (isRequested (start_rpc (start t)) = true -> isRequested (start_rpc (start t')) = true) /\
  (isConfirmed (start_rpc (start t)) = true -> isConfirmed (start_rpc (start t')) = true) /\
  (isRequested (stop_rpc (stop t)) = true -> isRequested (stop_rpc (stop t')) = true) /\
  (isConfirmed (stop_rpc (stop t)) = true -> isConfirmed (stop_rpc (stop t')) = true) /\
  (isAuthorized t = true -> isAuthorized t' = true) /\
  (isIdTagDeauthorized t = true -> isIdTagDeauthorized t' = true) /\
  (isActive t = false -> isActive t' = false).
Proof.
  cbv zeta.
  split; [apply start_requested_latched|].
  split; [apply start_confirmed_latched|].
  split; [apply stop_requested_latched|].
  split; [apply stop_confirmed_latched|].
  split; [apply authorized_latched|].
  split; [apply deauthorized_latched|apply inactive_latched].
Qed.

(** A started, authorized and ended transaction after four more calls. *)
Lemma flags_never_cleared_witness :
  let t := mutate_all [StartSetRequested; SetAuthorized; EndSession] (Transaction_new 1 1 false) in
  let t' := mutate_all [SetIdTag "abc"; StartConfirm; SetMeterStart 5; EndSession] t in
  isRequested (start_rpc (start t')) = true /\ isAuthorized t' = true /\ isActive t' = false.
Proof.
  intros t t'.
  pose proof (flags_never_cleared
                [SetIdTag "abc"; StartConfirm; SetMeterStart 5; EndSession] t) as H.
  destruct H as (H1 & _ & _ & _ & H5 & _ & H7).
  split; [apply H1; reflexivity|]. split; [apply H5; reflexivity|apply H7; reflexivity].
Defined.

(** X5. The states are passed in one direction: a transaction that is not
    preparing never becomes preparing again, one whose StopTransaction is
    requested is never running again, and a completed one stays completed,
    whatever mutators are called. *)
Theorem states_one_way (ms : list Mutator) (t : Transaction) :
  let t' := mutate_all ms t in
  (isPreparing t = false -> isPreparing t' = false) /\
  (isRequested (stop_rpc (stop t)) = true -> isRunning t' = false) /\
  (isCompleted t = true -> isCompleted t' = true).
Proof.
  cbv zeta. unfold isPreparing, isRunning, isCompleted.
  repeat split.
  - intros H. apply andb_false_iff in H. apply andb_false_iff.
    destruct H as [H|H].
    + left. apply (inactive_latched ms t). exact H.
    + right. apply negb_false_iff in H. apply negb_false_iff.
      apply start_requested_latched. exact H.
  - intros H. apply andb_false_iff. right. apply negb_false_iff.
    apply stop_requested_latched. exact H.
  - apply stop_confirmed_latched.
Qed.

(** A completed transaction on which StartTransaction is requested again. *)
Lemma states_one_way_witness :
  let t := mutate_all [StartSetRequested; EndSession; StopSetRequested; StopConfirm]
             (Transaction_new 1 1 false) in
  let t' := mutate_all [StartSetRequested; SetAuthorized; StartConfirm] t in
  isPreparing t' = false /\ isRunning t' = false /\ isCompleted t' = true.
Proof.
  intros t t'.
  pose proof (states_one_way [StartSetRequested; SetAuthorized; StartConfirm] t) as H.
  destruct H as (H1 & H2 & H3).
  split; [apply H1; reflexivity|]. split; [apply H2; reflexivity|apply H3; reflexivity].
Defined.

(** X6. A running transaction stays running until StopTransaction is
    requested: no other call, not even the end of the session or the
    confirmation of StopTransaction, ends the running state. *)
Theorem running_until_stop_requested (ms : list Mutator) (t : Transaction) :
  isRunning t = true ->
  forallb (fun m => negb (is_StopSetRequested m)) ms = true ->
  isRunning (mutate_all ms t) = true.
Proof.
  revert t. induction ms as [|m ms IH]; intros t Hr Hms.
  - exact Hr.
  - cbn [forallb] in Hms. apply andb_true_iff in Hms. destruct Hms as [Hm Hms].
    cbn [mutate_all fold_left]. apply IH; [|exact Hms].
    destruct_tx t. unfold isRunning, isRequested in Hr |- *. cbn in Hr.
    apply andb_true_iff in Hr. destruct Hr as [Hr1 Hr2]. subst.
    destruct m; try discriminate Hm; cbn; rewrite ?Hr2; reflexivity.
Qed.

(** A started transaction whose session ends and whose StopTransaction is
    confirmed without having been requested. *)
Lemma running_until_stop_requested_witness :
  isRunning (mutate_all [EndSession; StartConfirm; SetMeterStop 7; StopConfirm]
               (mutate_all [StartSetRequested] (Transaction_new 1 1 false))) = true.
Proof.
  apply running_until_stop_requested; reflexivity.
Defined.

(** X7. Whether a transaction is silent is fixed by the constructor: no
    sequence of mutator calls changes it. *)
Theorem silent_is_fixed (ms : list Mutator) (t : Transaction) :
  isSilent (mutate_all ms t) = isSilent t.
Proof.
  revert t. induction ms as [|m ms IH]; intros t; [reflexivity|].
  cbn [mutate_all fold_left]. fold (mutate_all ms (mutate m t)). rewrite IH.
  destruct m; reflexivity.
Qed.

(** X8. Only four calls can change the state of a transaction: requesting
    StartTransaction, requesting or confirming StopTransaction, and ending
    the session.  Every sequence of the other calls (the confirmation of
    StartTransaction and all setters of data) leaves the five state
    predicates as they are. *)
Theorem data_setters_keep_state (ms : list Mutator) (t : Transaction) :
  forallb (fun m => negb (writes_state m)) ms = true ->
  state_of (mutate_all ms t) = state_of t.
Proof.
  revert t. induction ms as [|m ms IH]; intros t Hms; [reflexivity|].
  cbn [forallb] in Hms. apply andb_true_iff in Hms. destruct Hms as [Hm Hms].
  cbn [mutate_all fold_left]. fold (mutate_all ms (mutate m t)). rewrite (IH _ Hms).
  destruct m; try discriminate Hm; reflexivity.
Qed.

(** A running transaction that receives its data stays running. *)
Lemma data_setters_keep_state_witness :
  state_of (mutate_all [SetIdTag "tag"; SetAuthorized; SetMeterStart 10; StartConfirm;
                        SetTransactionId 42; SetStopReason "Local"]
              (mutate_all [StartSetRequested] (Transaction_new 1 1 false)))
    = [false; true; false; false; true].
Proof.
  apply (data_setters_keep_state
           [SetIdTag "tag"; SetAuthorized; SetMeterStart 10; StartConfirm;
            SetTransactionId 42; SetStopReason "Local"]
           (mutate_all [StartSetRequested] (Transaction_new 1 1 false))).
  reflexivity.
Defined.

(** [snprintf] into a buffer of [n + 1] characters. *)
Lemma snprintf_s_length (n : nat) (src : string) :
  String.length (snprintf_s n src) = Nat.min n (String.length src).
Proof.
  unfold snprintf_s. revert src. induction n as [|n IH]; intros [|c src]; simpl; auto.
Qed.

Lemma snprintf_s_prefix (n : nat) (src : string) :
  String.prefix (snprintf_s n src) src = true.
Proof.
  unfold snprintf_s. revert src. induction n as [|n IH]; intros [|c src]; simpl; auto.
  destruct (ascii_dec c c); [apply IH|congruence].
Qed.

Lemma snprintf_s_short (n : nat) (src : string) :
  (String.length src <= n)%nat -> snprintf_s n src = src.
Proof.
  unfold snprintf_s. revert src. induction n as [|n IH]; intros [|c src]; simpl; auto.
  - lia.
  - intros H. f_equal. apply IH. lia.
Qed.

(** X9. The idTag of the session, the idTag of StopTransaction and the stop
    reason are stored cut to the size of their buffers: what is read back is
    a prefix of what was passed, at most [IDTAG_LEN_MAX] or [REASON_LEN_MAX]
    characters long, and it is what was passed when that fits. *)
Theorem tags_are_truncated (tag : string) (t : Transaction) :
  (String.length (getIdTag (setIdTag tag t)) <= IDTAG_LEN_MAX)%nat /\
  String.prefix (getIdTag (setIdTag tag t)) tag = true /\
  (String.length (getStopIdTag (setStopIdTag tag t)) <= IDTAG_LEN_MAX)%nat /\
  String.prefix (getStopIdTag (setStopIdTag tag t)) tag = true /\
  (String.length (getStopReason (setStopReason tag t)) <= REASON_LEN_MAX)%nat /\
  String.prefix (getStopReason (setStopReason tag t)) tag = true /\
  ((String.length tag <= IDTAG_LEN_MAX)%nat ->
     getIdTag (setIdTag tag t) = tag /\ getStopIdTag (setStopIdTag tag t) = tag) /\
  ((String.length tag <= REASON_LEN_MAX)%nat -> getStopReason (setStopReason tag t) = tag).
Proof.
  destruct_tx t.
  cbn [getIdTag setIdTag getStopIdTag setStopIdTag getStopReason setStopReason
       with_session with_stop_client with_stop session stop stop_client idTag stop_idTag
       stop_reason].
  rewrite !snprintf_s_length, !snprintf_s_prefix.
  repeat split; try apply Nat.le_min_l; apply snprintf_s_short; assumption.
Qed.

(** The idTag and the stop reason of the test suite fit. *)
Lemma tags_are_truncated_witness :
  getIdTag (setIdTag "mIdTag" (Transaction_new 1 1 false)) = "mIdTag"%string /\
  getStopIdTag (setStopIdTag "mIdTag" (Transaction_new 1 1 false)) = "mIdTag"%string /\
  getStopReason (setStopReason "Local" (Transaction_new 1 1 false)) = "Local"%string.
Proof.
  pose proof (tags_are_truncated "mIdTag" (Transaction_new 1 1 false)) as H1.
  pose proof (tags_are_truncated "Local" (Transaction_new 1 1 false)) as H2.
  destruct H1 as (_ & _ & _ & _ & _ & _ & H1 & _).
  destruct H2 as (_ & _ & _ & _ & _ & _ & _ & H2).
  split; [apply H1; vm_compute; repeat constructor|].
  split; [apply H1; vm_compute; repeat constructor|apply H2; vm_compute; repeat constructor].
Defined.

(* ===================================================================== *)
(** * Further properties of the connection adapters (Connection.cpp)     *)
(* ===================================================================== *)

Import ConnectionRuns.

(** X10. A loopback socket that is not connected swallows every message:
    each [sendTXT] reports success, the receive callback is never called
    (the world stays as it is) and the socket, [lastRecv] included, does not
    change. *)
Theorem echo_disconnected_drops (World : Type) (msgs : list (Z * string))
    (s : OcppEchoSocket World) (w : World) :
  Connection.connected s = false ->
  sendAll msgs s w = (map (fun _ => true) msgs, s, w).
Proof.
  intros Hc. induction msgs as [|[now out] msgs IH]; [reflexivity|].
  cbn [sendAll map]. unfold sendTXT. rewrite Hc. cbn [negb].
  rewrite IH. reflexivity.
Qed.

(** Two messages into a disconnected socket whose callback records them. *)
Lemma echo_disconnected_drops_witness :
  let rec : ReceiveTXTcallback (list string) := fun m log => (true, m :: log) in
  sendAll [(1, "a"%string); (2, "b"%string)] (mkOcppEchoSocket false (Some rec) 0) []
    = ([true; true], mkOcppEchoSocket false (Some rec) 0, []).
Proof.
  intros rec.
  apply (echo_disconnected_drops (list string) [(1, "a"%string); (2, "b"%string)]
           (mkOcppEchoSocket false (Some rec) 0) []).
  reflexivity.
Defined.

(** X11. A connected loopback socket on which no receive callback was set
    refuses every message: each [sendTXT] reports failure, and neither the
    socket nor the world changes. *)
Theorem echo_without_callback_fails (World : Type) (msgs : list (Z * string))
    (s : OcppEchoSocket World) (w : World) :
  Connection.connected s = true ->
  receiveTXT s = None ->
  sendAll msgs s w = (map (fun _ => false) msgs, s, w).
Proof.
  intros Hc Hr. induction msgs as [|[now out] msgs IH]; [reflexivity|].
  cbn [sendAll map]. unfold sendTXT. rewrite Hc, Hr. cbn [negb].
  rewrite IH. reflexivity.
Qed.

(** Two messages into a connected socket without callback. *)
Lemma echo_without_callback_fails_witness :
  sendAll [(1, "a"%string); (2, "b"%string)] (mkOcppEchoSocket (World := unit) true None 0) tt
    = ([false; false], mkOcppEchoSocket true None 0, tt).
Proof.
  apply (echo_without_callback_fails unit [(1, "a"%string); (2, "b"%string)]
           (mkOcppEchoSocket true None 0) tt); reflexivity.
Defined.

Lemma last_cons_default (A : Type) (l : list A) (a d : A) :
  last (a :: l) d = last l a.
Proof.
  revert a d. induction l as [|b l IH]; intros a d; [reflexivity|].
  change (last (a :: b :: l) d) with (last (b :: l) d).
  rewrite (IH b d), (IH b a). reflexivity.
Qed.

(** X12. A connected loopback socket is an echo: after
    [setReceiveTXTcallback], sending messages one after another is calling
    the callback on them in order, the results of [sendTXT] are the
    callback's, and [lastRecv] is the tick of the last send, whatever the
    callback answered (the old value if nothing was sent). *)
Theorem echo_connected_delivers (World : Type) (cb : ReceiveTXTcallback World)
    (msgs : list (Z * string)) (s : OcppEchoSocket World) (w : World) :
  Connection.connected s = true ->
  sendAll msgs (setReceiveTXTcallback cb s) w =
    (fst (deliverAll cb (map snd msgs) w),
     mkOcppEchoSocket true (Some cb) (last (map fst msgs) (lastRecv s)),
     snd (deliverAll cb (map snd msgs) w)).
Proof.
  intros Hc. unfold setReceiveTXTcallback. rewrite Hc.
  generalize (lastRecv s) as l. revert w.
  induction msgs as [|[now out] msgs IH]; intros w l; [reflexivity|].
  cbn [sendAll map deliverAll fst snd]. unfold sendTXT.
  cbn [Connection.connected receiveTXT negb].
  destruct (cb out w) as [r w'] eqn:E.
  rewrite IH.
  destruct (deliverAll cb (map snd msgs) w') as [rs w''].
  cbn [fst snd]. rewrite last_cons_default. reflexivity.
Qed.

(** Two messages into a connected socket whose callback was replaced by one
    that records them. *)
Lemma echo_connected_delivers_witness :
  let rec : ReceiveTXTcallback (list string) := fun m log => (true, m :: log) in
  let old : ReceiveTXTcallback (list string) := fun m log => (false, log) in
  sendAll [(1, "a"%string); (2, "b"%string)]
    (setReceiveTXTcallback rec (mkOcppEchoSocket true (Some old) 0)) []
    = ([true; true], mkOcppEchoSocket true (Some rec) 2, ["b"%string; "a"%string]).
Proof.
  intros rec old.
  apply (echo_connected_delivers (list string) rec [(1, "a"%string); (2, "b"%string)]
           (mkOcppEchoSocket true (Some old) 0) []).
  reflexivity.
Defined.

(** X13. The event handler of the WebSocket adapter calls the receive
    callback on the payloads of the text frames, in their order, and on
    nothing else: the rest of the program ends in the state in which the
    callback alone, called on these payloads, leaves it. *)
Theorem handler_forwards_text_only (World : Type) (callback : ReceiveTXTcallback World)
    (evs : list WsEvent) (last : Z) (w : World) :
  snd (handleAll callback evs last w) = snd (deliverAll callback (text_payloads evs) w).
Proof.
  revert last w. induction evs as [|[[now ty] payload] evs IH]; intros last w; [reflexivity|].
  cbn [handleAll]. unfold event_tick, event_type, event_payload. cbn [fst snd].
  unfold text_payloads. cbn [filter]. unfold event_type at 1. cbn [fst snd].
  destruct ty; cbn [onEvent is_text map]; try apply IH.
  unfold event_payload at 1. cbn [snd deliverAll].
  destruct (callback payload w) as [ok w'].
  fold (text_payloads evs).
  specialize (IH (if ok then now else last) w').
  destruct ok; cbn [fst snd] in *;
    destruct (deliverAll callback (text_payloads evs) w') as [rs w'']; exact IH.
Qed.

(** After a sequence of events [lastRecv] is its old value or the tick of
    one of the events, of a type that can assign it. *)
Lemma handleAll_last_or_tick (World : Type) (callback : ReceiveTXTcallback World)
    (evs : list WsEvent) (last : Z) (w : World) :
  fst (handleAll callback evs last w) = last
  \/ exists e, In e evs /\ assigns_lastRecv (event_type e) = true
               /\ fst (handleAll callback evs last w) = event_tick e.
Proof.
  revert last w. induction evs as [|[[now ty] payload] evs IH]; intros last w.
  - left. reflexivity.
  - cbn [handleAll].
    destruct (onEvent callback (event_tick (now, ty, payload)) (event_type (now, ty, payload))
                (event_payload (now, ty, payload)) last w) as [last' w'] eqn:E.
    assert (Hl : last' = last \/ (last' = now /\ assigns_lastRecv ty = true)).
    { unfold event_tick, event_type, event_payload in E. cbn [fst snd] in E.
      destruct ty; cbn [onEvent] in E;
        try (injection E as <- _; auto; fail).
      destruct (callback payload w) as [[|] w0]; injection E as <- _; auto. }
    destruct (IH last' w') as [IH'|(e & Hin & Hty & He)].
    + rewrite IH'. destruct Hl as [->|[-> Hty]]; [left; reflexivity|].
      right. exists (now, ty, payload). split; [left; reflexivity|].
      split; [exact Hty|reflexivity].
    + right. exists e. split; [right; exact Hin|]. split; assumption.
Qed.

(** X14. [lastRecv] never holds anything but a tick at which the handler
    ran: after any sequence of events it is its old value or the tick of one
    of the events. *)
Theorem lastRecv_is_an_event_tick (World : Type) (callback : ReceiveTXTcallback World)
    (evs : list WsEvent) (last : Z) (w : World) :
  In (fst (handleAll callback evs last w)) (last :: map event_tick evs).
Proof.
  destruct (handleAll_last_or_tick World callback evs last w) as [->|(e & Hin & _ & ->)].
  - left. reflexivity.
  - right. apply in_map. exact Hin.
Qed.

Lemma handleAll_app (World : Type) (callback : ReceiveTXTcallback World)
    (a b : list WsEvent) (last : Z) (w : World) :
  handleAll callback (a ++ b) last w =
    handleAll callback b (fst (handleAll callback a last w))
      (snd (handleAll callback a last w)).
Proof.
  revert last w. induction a as [|e a IH]; intros last w; [reflexivity|].
  cbn [app handleAll].
  destruct (onEvent callback (event_tick e) (event_type e) (event_payload e) last w)
    as [last' w'].
  apply IH.
Qed.

(** X15. [lastRecv] does not go back as long as the tick does not: when no
    later event runs at a tick before the initial value or before the tick of
    an earlier event, [lastRecv] after all events is at least what it was
    after the earlier ones. *)
Theorem lastRecv_never_decreases (World : Type) (callback : ReceiveTXTcallback World)
    (a b : list WsEvent) (last : Z) (w : World) :
  (forall x y, In x (last :: map event_tick a) -> In y (map event_tick b) -> x <= y) ->
  fst (handleAll callback a last w) <= fst (handleAll callback (a ++ b) last w).
Proof.
  intros Hs. rewrite handleAll_app.
  set (la := fst (handleAll callback a last w)).
  set (wa := snd (handleAll callback a last w)).
  destruct (handleAll_last_or_tick World callback b la wa) as [->|(e & Hin & _ & ->)];
    [apply Z.le_refl|].
  apply Hs; [|apply in_map; exact Hin].
  unfold la.
  destruct (handleAll_last_or_tick World callback a last w) as [->|(e' & Hin' & _ & ->)].
  - left. reflexivity.
  - right. apply in_map. exact Hin'.
Qed.

(** A connect event and a binary frame, then a ping. *)
Lemma lastRecv_never_decreases_witness :
  let ok : ReceiveTXTcallback unit := fun _ w => (true, w) in
  fst (handleAll ok [(5, WStype_CONNECTED, "u"%string); (7, WStype_BIN, "x"%string)] 0 tt)
  <= fst (handleAll ok ([(5, WStype_CONNECTED, "u"%string); (7, WStype_BIN, "x"%string)]
                          ++ [(9, WStype_PING, "p"%string)]) 0 tt).
Proof.
  intros ok.
  apply (lastRecv_never_decreases unit ok).
  intros x y Hx Hy. cbn in Hx, Hy.
  destruct Hy as [<-|[]]. destruct Hx as [<-|[<-|[<-|[]]]]; lia.
Defined.

(** X16. Events that are neither a connect, a text frame, a ping nor a pong
    (a disconnect, binary frames, fragments, errors) leave [lastRecv] and the
    rest of the program untouched. *)
Theorem unanswered_events_keep_lastRecv (World : Type) (callback : ReceiveTXTcallback World)
    (evs : list WsEvent) (last : Z) (w : World) :
  forallb (fun e => negb (assigns_lastRecv (event_type e))) evs = true ->
  handleAll callback evs last w = (last, w).
Proof.
  induction evs as [|[[now ty] payload] evs IH]; intros H; [reflexivity|].
  cbn [forallb] in H. apply andb_true_iff in H. destruct H as [Hty H].
  cbn [handleAll]. unfold event_tick, event_type, event_payload in *. cbn [fst snd] in *.
  destruct ty; try discriminate Hty; cbn [onEvent]; apply IH; exact H.
Qed.

(** A binary frame, a disconnect and a fragment. *)
Lemma unanswered_events_keep_lastRecv_witness :
  let ok : ReceiveTXTcallback unit := fun _ w => (true, w) in
  handleAll ok [(5, WStype_BIN, "x"%string); (7, WStype_DISCONNECTED, "x"%string);
                (9, WStype_FRAGMENT_TEXT_START, "x"%string)] 0 tt = (0, tt).
Proof.
  intros ok.
  apply (unanswered_events_keep_lastRecv unit ok). reflexivity.
Defined.

(* ===================================================================== *)
(** * The feature profiles set up by the constructor                     *)
(** ** (ChargeControlCommon.cpp)                                         *)
(* ===================================================================== *)

Import FeatureProfiles.
Local Open Scope string_scope.

Lemma prefix_nil (s : string) : String.prefix EmptyString s = true.
Proof. destruct s; reflexivity. Qed.

Lemma prefix_app_l (n a b : string) :
  String.prefix n a = true -> String.prefix n (a ++ b) = true.
Proof.
  revert a. induction n as [|c n IH]; intros a H; [apply prefix_nil|].
  destruct a as [|d a]; [discriminate H|].
  cbn [String.prefix append] in *.
  destruct (ascii_dec c d); [apply IH; exact H | discriminate H].
Qed.

Lemma prefix_self_app (n r : string) : String.prefix n (n ++ r) = true.
Proof.
  induction n as [|c n IH]; [apply prefix_nil|].
  cbn [String.prefix append]. destruct (ascii_dec c c); [exact IH | congruence].
Qed.

Lemma strstr_unfold (h n : string) :
  strstr h n = String.prefix n h
               || match h with EmptyString => false | String _ rest => strstr rest n end.
Proof. destruct h; reflexivity. Qed.

(** What occurs in a string occurs in the string with something appended. *)
Lemma strstr_app_l (a b n : string) :
  strstr a n = true -> strstr (a ++ b) n = true.
Proof.
  induction a as [|c a IH]; intros H.
  - rewrite strstr_unfold in H. rewrite orb_false_r in H.
    rewrite strstr_unfold. rewrite (prefix_app_l n EmptyString b H). reflexivity.
  - rewrite strstr_unfold in H. apply orb_true_iff in H.
    cbn [append]. rewrite strstr_unfold. apply orb_true_iff.
    destruct H as [H|H].
    + left. apply (prefix_app_l n (String c a) b H).
    + right. apply IH. exact H.
Qed.

Lemma strstr_app_r (a n b : string) : strstr (a ++ n ++ b) n = true.
Proof.
  induction a as [|c a IH].
  - cbn [append]. rewrite strstr_unfold. rewrite prefix_self_app. reflexivity.
  - cbn [append]. rewrite strstr_unfold. rewrite IH. apply orb_true_r.
Qed.

Lemma append_nil_r (s : string) : s ++ EmptyString = s.
Proof. induction s as [|c s IH]; [reflexivity|]. cbn [append]. rewrite IH. reflexivity. Qed.

Lemma append_assoc (a b c : string) : (a ++ b) ++ c = a ++ b ++ c.
Proof. induction a as [|x a IH]; [reflexivity|]. cbn [append]. rewrite IH. reflexivity. Qed.

Lemma back_app (a : string) (c : ascii) (r : string) :
  back (a ++ String c r) = back (String c r).
Proof.
  induction a as [|x a IH]; [reflexivity|].
  cbn [append]. rewrite <- IH.
  destruct a; reflexivity.
Qed.

Lemma empty_app (a : string) (c : ascii) (r : string) :
  empty (a ++ String c r) = false.
Proof. destruct a; reflexivity. Qed.

(** The string built in an [if] block is the stored value, then the profile
    with or without a comma before it. *)
Lemma append_profile_cases (profile value : string) :
  append_profile profile value = value ++ profile
  \/ append_profile profile value = value ++ "," ++ profile.
Proof.
  unfold append_profile.
  destruct (negb (empty value) && _).
  - right. apply append_assoc.
  - left. reflexivity.
Qed.

(** After Core was appended the value ends with a letter, so RemoteTrigger
    is appended with a comma. *)
Lemma append_profile_after_Core (value : string) :
  append_profile fpIdRTrigger (value ++ fpIdCore) = value ++ "Core,RemoteTrigger".
Proof.
  unfold append_profile, fpIdCore. rewrite empty_app, back_app.
  cbn [back negb andb Ascii.eqb Bool.eqb]. rewrite !append_assoc. reflexivity.
Qed.

Section ConstructorProperties.

Variable Configuration : Type.
Variable getValue : Configuration -> string.
Variable setValue : string -> Configuration -> Configuration.

(** What was written with [setValue] is what is read back.  The key is
    declared writable for the local client. *)
Hypothesis getValue_setValue :
  forall v c, getValue (setValue v c) = v.

Lemma ensure_profile_found (profile : string) (c : Configuration) :
  strstr (getValue (ensure_profile Configuration getValue setValue profile c)) profile
    = true.
Proof.
  unfold ensure_profile.
  destruct (strstr (getValue c) profile) eqn:E; cbn [negb]; [exact E|].
  rewrite getValue_setValue.
  destruct (append_profile_cases profile (getValue c)) as [-> | ->].
  - rewrite <- (append_nil_r profile) at 1. apply strstr_app_r.
  - rewrite <- (append_nil_r profile) at 1.
    rewrite <- append_assoc. apply strstr_app_r.
Qed.

Lemma ensure_profile_keeps (profile other : string) (c : Configuration) :
  strstr (getValue c) other = true ->
  strstr (getValue (ensure_profile Configuration getValue setValue profile c)) other
    = true.
Proof.
  intros H. unfold ensure_profile.
  destruct (strstr (getValue c) profile); cbn [negb]; [exact H|].
  rewrite getValue_setValue.
  destruct (append_profile_cases profile (getValue c)) as [-> | ->];
    apply strstr_app_l; exact H.
Qed.

Lemma ensure_profile_present (profile : string) (c : Configuration) :
  strstr (getValue c) profile = true ->
  ensure_profile Configuration getValue setValue profile c = c.
Proof.
  intros H. unfold ensure_profile. rewrite H. reflexivity.
Qed.

(** X17. Whatever SupportedFeatureProfiles held when it was declared, after
    the two [if] blocks of the constructor both Core and RemoteTrigger occur
    in it. *)
Theorem feature_profiles_completed (c : Configuration) :
  strstr (getValue (complete_feature_profiles Configuration getValue setValue c))
         fpIdCore = true
  /\ strstr (getValue (complete_feature_profiles Configuration getValue setValue c))
            fpIdRTrigger = true.
Proof.
  unfold complete_feature_profiles. split.
  - apply ensure_profile_keeps. apply ensure_profile_found.
  - apply ensure_profile_found.
Qed.

(** X18. Running the two [if] blocks a second time writes nothing: the
    configuration they produced is left as it is. *)
Theorem feature_profiles_idempotent (c : Configuration) :
  complete_feature_profiles Configuration getValue setValue
    (complete_feature_profiles Configuration getValue setValue c)
  = complete_feature_profiles Configuration getValue setValue c.
Proof.
  unfold complete_feature_profiles at 1.
  rewrite (ensure_profile_present fpIdCore).
  - apply ensure_profile_present. apply ensure_profile_found.
  - unfold complete_feature_profiles.
    apply ensure_profile_keeps. apply ensure_profile_found.
Qed.

(** X19. The constructor only appends: the value it leaves is the value it
    found followed by nothing, by one of the two profiles or by both, Core
    first, each with or without a comma before it; RemoteTrigger directly
    after an appended Core always has its comma. *)
Theorem feature_profiles_only_appended (c : Configuration) :
  exists suffix,
    In suffix appended_suffixes
    /\ getValue (complete_feature_profiles Configuration getValue setValue c)
       = getValue c ++ suffix.
Proof.
  unfold complete_feature_profiles, ensure_profile.
  destruct (strstr (getValue c) fpIdCore) eqn:EC; cbn [negb].
  - destruct (strstr (getValue c) fpIdRTrigger) eqn:ER; cbn [negb].
    + exists EmptyString. split; [cbn; tauto|]. symmetry. apply append_nil_r.
    + rewrite getValue_setValue.
      destruct (append_profile_cases fpIdRTrigger (getValue c)) as [-> | ->].
      * exists "RemoteTrigger". split; [cbn; tauto | reflexivity].
      * exists ",RemoteTrigger". split; [cbn; tauto | reflexivity].
  - rewrite getValue_setValue.
    destruct (append_profile_cases fpIdCore (getValue c)) as [-> | ->].
    + destruct (strstr (getValue c ++ fpIdCore) fpIdRTrigger) eqn:ER; cbn [negb].
      * rewrite getValue_setValue.
        exists "Core". split; [cbn; tauto | reflexivity].
      * rewrite getValue_setValue. rewrite append_profile_after_Core.
        exists "Core,RemoteTrigger". split; [cbn; tauto | reflexivity].
    + destruct (strstr (getValue c ++ "," ++ fpIdCore) fpIdRTrigger) eqn:ER; cbn [negb].
      * rewrite getValue_setValue.
        exists ",Core". split; [cbn; tauto | reflexivity].
      * rewrite getValue_setValue.
        replace (getValue c ++ "," ++ fpIdCore) with ((getValue c ++ ",") ++ fpIdCore)
          by apply append_assoc.
        rewrite append_profile_after_Core. rewrite append_assoc.
        exists ",Core,RemoteTrigger". split; [cbn; tauto | reflexivity].
Qed.

End ConstructorProperties.

(** A stored value that names another profile and ends with a comma. *)
Lemma feature_profiles_completed_witness :
  strstr (complete_feature_profiles string plain_getValue plain_setValue "Reservation,")
         fpIdCore = true
  /\ strstr (complete_feature_profiles string plain_getValue plain_setValue "Reservation,")
            fpIdRTrigger = true.
Proof.
  apply (feature_profiles_completed string plain_getValue plain_setValue).
  intros v c. reflexivity.
Defined.

(** The same value, passed through the constructor's blocks twice. *)
Lemma feature_profiles_idempotent_witness :
  complete_feature_profiles string plain_getValue plain_setValue
    (complete_feature_profiles string plain_getValue plain_setValue "Reservation,")
  = complete_feature_profiles string plain_getValue plain_setValue "Reservation,".
Proof.
  apply (feature_profiles_idempotent string plain_getValue plain_setValue).
  intros v c. reflexivity.
Defined.

(** A stored value that holds Core already. *)
Lemma feature_profiles_only_appended_witness :
  exists suffix,
    In suffix appended_suffixes
    /\ complete_feature_profiles string plain_getValue plain_setValue "Core"
       = "Core" ++ suffix.
Proof.
  apply (feature_profiles_only_appended string plain_getValue plain_setValue).
  intros v c. reflexivity.
Defined.
